(** * The carbon-footprint engine of [server.js]

    A shallow embedding of the three computational pieces of the server
    ([calculateDistance], [getEmissionFactor] and the body of
    [POST /api/calculate-carbon]) together with the properties the
    specification states about them.

    JavaScript Numbers are IEEE 754 binary64 values: they are modelled by
    Rocq's primitive [float]s, whose [+], [-], [*], [/] and [sqrt] are the
    IEEE operations.  [Math.sin], [Math.cos] and [Math.atan2] are only
    specified by ECMAScript on a few exact arguments and are otherwise
    left to the engine; the embedding keeps that split (record [Engine]).
    [calculateDistance] is written over the interface of the number
    operations it uses, which is instantiated with those of the engine.
    Conversions of request values to Strings and Numbers can throw, and
    are modelled so. *)

From Stdlib Require Import ZArith List String Ascii Bool Lia.
From Stdlib Require Import DecimalString.
From Stdlib Require Import Floats.
From Stdlib Require Import Reals Lra Machin.
Import ListNotations.

Set Warnings "-inexact-float,-register-all".

Local Open Scope string_scope.
Local Open Scope list_scope.

(** ** JavaScript values *)

Module JS.

(** The values a parsed JSON body can hold, [undefined] for an absent
    property, and built-in function objects (met only as properties
    inherited from [Object.prototype]).  An object is the list of its own
    enumerable properties in the order [Object.keys] lists them. *)
Inductive value : Type :=
| VUndefined
| VNull
| VBool (b : bool)
| VNum (x : float)
| VStr (s : string)
| VArr (items : list value)
| VObj (props : list (string * value))
| VFun (name : string).

(** ToBoolean: [undefined], [null], [false], [+0], [-0], [NaN] and the empty
    string are falsy, everything else is truthy. *)
Definition truthy (v : value) : bool :=
  match v with
  | VUndefined | VNull => false
  | VBool b => b
  | VNum x => negb (PrimFloat.is_zero x || PrimFloat.is_nan x)
  | VStr s => negb (String.eqb s "")
  | VArr _ | VObj _ | VFun _ => true
  end.

(** [a || b] *)
Definition js_or (a b : value) : value := if truthy a then a else b.

(** Decimal text of an array index. *)
Definition index_string (i : nat) : string :=
  NilZero.string_of_uint (Nat.to_uint i).

Fixpoint indexed {A : Type} (i : nat) (l : list A) : list (string * A) :=
  match l with
  | [] => []
  | x :: rest => (index_string i, x) :: indexed (S i) rest
  end.

Definition chars (s : string) : list value :=
  map (fun c => VStr (String c EmptyString)) (list_ascii_of_string s).

(** Own enumerable string-keyed properties, in [Object.keys] order. *)
Definition own_entries (v : value) : list (string * value) :=
  match v with
  | VObj props => props
  | VArr items => indexed 0 items
  | VStr s => indexed 0 (chars s)
  | _ => []
  end.

Fixpoint assoc (k : string) (l : list (string * value)) : value :=
  match l with
  | [] => VUndefined
  | (k', v) :: rest => if String.eqb k k' then v else assoc k rest
  end.

(** [v[k]] on a value that converts to an object, for a key that is an own
    enumerable property or is absent from the prototype chain (every key
    the handler reads is of that kind). *)
Definition Get (v : value) (k : string) : value := assoc k (own_entries v).

(** [v === s] for a string literal [s]: no conversion takes place. *)
Definition strict_equals (v : value) (s : string) : bool :=
  match v with
  | VStr s' => String.eqb s' s
  | _ => false
  end.

Notation "v === s" := (strict_equals v s) (at level 70, no associativity).

(** Results of code that may throw. *)
Inductive completion (A : Type) : Type :=
| Return (a : A)
| Throw (error : string).
Arguments Return {A} a.
Arguments Throw {A} error.

Definition bind {A B : Type} (c : completion A) (k : A -> completion B)
  : completion B :=
  match c with
  | Return a => k a
  | Throw e => Throw e
  end.

Definition cmap {A B : Type} (f : A -> B) (c : completion A) : completion B :=
  bind c (fun a => Return (f a)).

Notation "x <- c ;; k" := (bind c (fun x => k))
  (at level 61, c at next level, right associativity).

(** A value that converts to an object: all but [undefined] and [null]. *)
Definition object_coercible (v : value) : bool :=
  match v with
  | VUndefined | VNull => false
  | _ => true
  end.

(** [v.k], for the keys [Get] covers: a TypeError on [undefined] and
    [null]. *)
Definition property (v : value) (k : string) : completion value :=
  if object_coercible v then Return (Get v k)
  else Throw "TypeError: Cannot read properties of undefined or null".

(** [Object.keys(v)]: a TypeError on [undefined] and [null]. *)
Definition Object_keys (v : value) : completion (list string) :=
  match v with
  | VUndefined | VNull =>
      Throw "TypeError: Cannot convert undefined or null to object"
  | _ => Return (map fst (own_entries v))
  end.

(** Names every object literal inherits from [Object.prototype]. *)
Definition Object_prototype_functions : list string :=
  [ "constructor"; "hasOwnProperty"; "isPrototypeOf"; "propertyIsEnumerable";
    "toLocaleString"; "toString"; "valueOf";
    "__defineGetter__"; "__defineSetter__";
    "__lookupGetter__"; "__lookupSetter__" ].

Definition mem_string (k : string) (l : list string) : bool :=
  existsb (String.eqb k) l.

(** [o[k]] for an object literal [o] with the given own properties: own
    properties first, then the prototype chain. *)
Definition literal_get (own : list (string * value)) (k : string) : value :=
  match assoc k own with
  | VUndefined =>
      if mem_string k Object_prototype_functions then VFun k
      else if String.eqb k "__proto__" then VObj []
      else VUndefined
  | v => v
  end.

(** Whether [k] is among the own properties. *)
Definition has_own (k : string) (props : list (string * value)) : bool :=
  existsb (fun entry => String.eqb (fst entry) k) props.

End JS.
Import JS.

(** ** Numbers *)

Module Num.

Local Open Scope float_scope.

(** The integer [z] as a Number (exact for [|z| <= 2^53]). *)
Definition of_Z (z : Z) : float :=
  SF2Prim (binary_normalize prec emax z 0 false).

Definition of_nat (n : nat) : float := of_Z (Z.of_nat n).

(** [Math.PI] *)
Definition Math_PI : float := 3.141592653589793.

(** [Math.sqrt]: the correctly rounded IEEE operation, as engines provide it. *)
Definition Math_sqrt (x : float) : float := PrimFloat.sqrt x.

(** [Math.ceil]: exact.  A finite value [m * 2^e] with [e < 0] is below
    [2^53] in magnitude, so the integer result is representable. *)
Definition Math_ceil (x : float) : float :=
  match Prim2SF x with
  | S754_finite s m e =>
      if (0 <=? e)%Z then x
      else
        let d := (2 ^ (- e))%Z in
        let q := (Zpos m / d)%Z in
        let exact := (Zpos m mod d =? 0)%Z in
        if s then (if (q =? 0)%Z then neg_zero else - of_Z q)
        else of_Z (if exact then q else q + 1)%Z
  | _ => x
  end.

(** What ECMAScript leaves to the engine: the values of the
    "implementation-approximated" functions away from their exactly
    specified arguments, and the conversions between Numbers and Strings. *)
Record Engine : Type := {
  approx_sin : float -> float;
  approx_cos : float -> float;
  approx_atan2 : float -> float -> float;
  Number_toString : float -> string;
  StringToNumber : string -> float;
  parseFloat_string : string -> float;
  Number_toFixed : float -> nat -> string
}.

Section Builtins.

Variable E : Engine.

(** [Math.sin(x)]: [NaN], [+0] and [-0] are returned as they are, an
    infinity gives [NaN]. *)
Definition Math_sin (x : float) : float :=
  if PrimFloat.is_nan x || PrimFloat.is_zero x then x
  else if PrimFloat.is_infinity x then nan
  else approx_sin E x.

(** [Math.cos(x)]: [NaN] and the infinities give [NaN], a zero gives [1]. *)
Definition Math_cos (x : float) : float :=
  if PrimFloat.is_nan x || PrimFloat.is_infinity x then nan
  else if PrimFloat.is_zero x then 1
  else approx_cos E x.

(** [Math.atan2(y, x)], with the cases ECMAScript fixes exactly: a [NaN]
    argument, a zero [y] with [x] positive or [+0], and a finite non-zero
    [y] with [x = +Infinity]. *)
Definition Math_atan2 (y x : float) : float :=
  if PrimFloat.is_nan y || PrimFloat.is_nan x then nan
  else if PrimFloat.is_zero y && negb (PrimFloat.get_sign x) then y
  else if PrimFloat.is_finite y && negb (PrimFloat.is_zero y)
          && PrimFloat.is_infinity x && negb (PrimFloat.get_sign x)
       then (if PrimFloat.get_sign y then neg_zero else 0)
  else approx_atan2 E y x.

(** ToPrimitive on an object parsed from JSON.  Its own properties are
    never callable, so an own [toString] hides [Object.prototype.toString]
    and leaves no method that returns a primitive ([valueOf] returns the
    object itself, or is hidden as well): OrdinaryToPrimitive throws a
    TypeError, with either hint.  Without an own [toString] the inherited
    one answers ["[object Object]"]. *)
Definition object_to_primitive (props : list (string * value))
  : completion string :=
  if has_own "toString" props
  then Throw "TypeError: Cannot convert object to primitive value"
  else Return "[object Object]".

(** ToString.  An array is joined with commas, its elements converted in
    order, [undefined] and [null] as empty strings. *)
Fixpoint ToString (v : value) : completion string :=
  match v with
  | VUndefined => Return "undefined"
  | VNull => Return "null"
  | VBool true => Return "true"
  | VBool false => Return "false"
  | VNum x => Return (Number_toString E x)
  | VStr s => Return s
  | VArr items =>
      (fix join (l : list value) : completion string :=
         match l with
         | [] => Return ""
         | x :: rest =>
             sx <- match x with
                   | VUndefined | VNull => Return ""
                   | _ => ToString x
                   end ;;
             match rest with
             | [] => Return sx
             | _ :: _ => tail <- join rest ;; Return (sx ++ "," ++ tail)%string
             end
         end) items
  | VObj props => object_to_primitive props
  | VFun name => Return ("function " ++ name ++ "() { [native code] }")%string
  end.

(** ToNumber.  An array converts through its String; an object through
    ["[object Object]"], which denotes no number. *)
Definition ToNumber (v : value) : completion float :=
  match v with
  | VUndefined => Return nan
  | VNull => Return 0
  | VBool true => Return 1
  | VBool false => Return 0
  | VNum x => Return x
  | VStr s => Return (StringToNumber E s)
  | VArr _ => s <- ToString v ;; Return (StringToNumber E s)
  | VObj props => _ <- object_to_primitive props ;; Return nan
  | VFun _ => Return nan
  end.

(** [parseFloat(v)] parses a prefix of [ToString(v)].  A Number survives the
    round trip through its decimal text, except that [-0] prints as ["0"]. *)
Definition parseFloat (v : value) : completion float :=
  match v with
  | VNum x => Return (if PrimFloat.is_zero x then 0 else x)
  | _ => s <- ToString v ;; Return (parseFloat_string E s)
  end.

(** [parseFloat(x.toFixed(digits))]: the argument is a String already. *)
Definition presented (x : float) (digits : nat) : float :=
  parseFloat_string E (Number_toFixed E x digits).

End Builtins.

End Num.
Import Num.

(** ** [calculateDistance] *)

(** The operations on Numbers that [calculateDistance] uses. *)
Record NumberOps (num : Type) : Type := {
  nlit : Z -> num;
  nPI : num;
  nadd : num -> num -> num;
  nsub : num -> num -> num;
  nmul : num -> num -> num;
  ndiv : num -> num -> num;
  nsin : num -> num;
  ncos : num -> num;
  nsqrt : num -> num;
  natan2 : num -> num -> num
}.
Arguments nlit {num}.
Arguments nPI {num}.
Arguments nadd {num}.
Arguments nsub {num}.
Arguments nmul {num}.
Arguments ndiv {num}.
Arguments nsin {num}.
Arguments ncos {num}.
Arguments nsqrt {num}.
Arguments natan2 {num}.

Declare Scope num_scope.
Delimit Scope num_scope with num.

Section Distance.

Context {num : Type} (N : NumberOps num).

Local Notation "x + y" := (nadd N x y) : num_scope.
Local Notation "x - y" := (nsub N x y) : num_scope.
Local Notation "x * y" := (nmul N x y) : num_scope.
Local Notation "x / y" := (ndiv N x y) : num_scope.
Local Notation "# z" := (nlit N z) (at level 1, format "# z") : num_scope.
Local Notation "'Math.PI'" := (nPI N) : num_scope.
Local Notation "'Math.sin'" := (nsin N) : num_scope.
Local Notation "'Math.cos'" := (ncos N) : num_scope.
Local Notation "'Math.sqrt'" := (nsqrt N) : num_scope.
Local Notation "'Math.atan2'" := (natan2 N) : num_scope.

Local Open Scope num_scope.

(** Helper function: distance by the Haversine formula
    ([server.js], lines 24-38). *)
Definition calculateDistance (lat1 lon1 lat2 lon2 : num) : num :=
  let R := #6371 in
  let dLat := (lat2 - lat1) * Math.PI / #180 in
  let dLon := (lon2 - lon1) * Math.PI / #180 in
  let a :=
    Math.sin (dLat / #2) * Math.sin (dLat / #2) +
    Math.cos (lat1 * Math.PI / #180) * Math.cos (lat2 * Math.PI / #180) *
    Math.sin (dLon / #2) * Math.sin (dLon / #2) in
  let c := #2 * Math.atan2 (Math.sqrt a) (Math.sqrt (#1 - a)) in
  let distance := R * c in
  distance.

End Distance.

(** Numbers as the engine computes them. *)
Definition floatOps (E : Engine) : NumberOps float := {|
  nlit := Num.of_Z;
  nPI := Math_PI;
  nadd := PrimFloat.add;
  nsub := PrimFloat.sub;
  nmul := PrimFloat.mul;
  ndiv := PrimFloat.div;
  nsin := Math_sin E;
  ncos := Math_cos E;
  nsqrt := Math_sqrt;
  natan2 := Math_atan2 E
|}.

(** ** [getEmissionFactor] *)

Module Emission.

Local Open Scope float_scope.

(** The object literal [fuelFactors] (lines 53-58). *)
Definition fuelFactors : list (string * value) :=
  [ ("diesel", VNum 0.12); ("cng", VNum 0.10);
    ("bev", VNum 0.04); ("hvo", VNum 0.08) ].

(** The running [sum] of the [reduce].  It is a Number until a value that
    is not a primitive is added; [+] then concatenates, and [sum] is from
    there on a String holding the digits so far followed by the source text
    of a function (or by [[object Object]]), which denotes no number.  Only
    that fact is kept of such a String. *)
Inductive accumulator : Type :=
| AccNumber (x : float)
| AccText.

(** [sum + v] *)
Definition acc_add (sum : accumulator) (v : value) : accumulator :=
  match sum, v with
  | AccNumber s, VNum x => AccNumber (s + x)
  | AccNumber s, VBool true => AccNumber (s + 1)
  | AccNumber s, (VBool false | VNull) => AccNumber (s + 0)
  | AccNumber s, VUndefined => AccNumber (s + nan)
  | _, _ => AccText
  end.

(** [sum / n]: a String that denotes no number converts to [NaN]. *)
Definition acc_div (sum : accumulator) (n : float) : float :=
  match sum with
  | AccNumber s => s / n
  | AccText => nan / n
  end.

(** Helper function: emission factor from transport mode, fuel types and
    cooling (lines 41-94).  The [switch] compares with [===]. *)
Definition getEmissionFactor (transportMode fuelTypes cooledTransport : value)
  : completion float :=
  let emissionFactor := 0.1 in
  emissionFactor <-
    (if transportMode === "truck" then
       let emissionFactor := 0.12 in
       keys <- Object_keys fuelTypes ;;
       let selectedFuels :=
         filter (fun key => truthy (Get fuelTypes key)) keys in
       if (0 <? List.length selectedFuels)%nat then
         let avgFactor :=
           acc_div
             (fold_left
                (fun sum fuel =>
                   acc_add sum (js_or (literal_get fuelFactors fuel) (VNum 0.12)))
                selectedFuels (AccNumber 0))
             (Num.of_nat (List.length selectedFuels)) in
         Return avgFactor
       else Return emissionFactor
     else if transportMode === "ship" then Return 0.04
     else if transportMode === "plane" then Return 0.5
     else if transportMode === "train" then Return 0.03
     else if transportMode === "intermodal" then Return 0.08
     else Return 0.1) ;;
  Return (if truthy cooledTransport then emissionFactor * 1.3
          else emissionFactor).

End Emission.
Import Emission.

(** ** [POST /api/calculate-carbon] *)

Module Handler.

Local Open Scope float_scope.

(** The local constants of lines 130-148. *)
Record Footprint : Type := {
  totalWeight : float;
  distance : float;
  emissionFactor : float;
  carbonFootprint : float;
  treesNeeded : float
}.

(** The document handed to the store (lines 151-180). *)
Inductive FieldValue : Type := serverTimestamp.

Record CalculationData : Type := {
  cd_userId : value;
  cd_quantity : float;
  cd_unit : value;
  cd_tonnesPerUnit : float;
  cd_totalWeight : float;
  cd_cooledTransport : value;
  cd_transportMode : value;
  cd_fuelTypes : value;
  cd_origin : value;
  cd_destination : value;
  cd_originCoords : value;
  cd_destinationCoords : value;
  cd_originDetails : value;
  cd_destinationDetails : value;
  cd_distance : float;
  cd_emissionFactor : float;
  cd_carbonFootprint : float;
  cd_treesNeeded : float;
  cd_calculatedAt : FieldValue;
  cd_createdAt : string
}.

(** What the handler can observe of its surroundings: the
    [emissionCalculations] collection, whether the store takes a given
    document (it may be unreachable, or refuse the document), the
    identifiers it hands out, and the clock. *)
Record World : Type := {
  emissionCalculations : list (string * CalculationData);
  accepts : CalculationData -> bool;
  auto_id : nat -> string;
  now : string
}.

(** [db.collection('emissionCalculations').add(d)]: the new document's id and
    the store after the write, or a rejection. *)
Definition collection_add (w : World) (d : CalculationData)
  : completion (string * World) :=
  if accepts w d then
    let id := auto_id w (List.length (emissionCalculations w)) in
    Return (id, {| emissionCalculations := emissionCalculations w ++ [(id, d)];
                   accepts := accepts w;
                   auto_id := auto_id w;
                   now := now w |})
  else Throw "store: write rejected".

(** The [data] member of the success response (lines 189-198). *)
Record ResponseData : Type := {
  rd_id : string;
  rd_carbonFootprint : float;
  rd_totalWeight : float;
  rd_distance : float;
  rd_emissionFactor : float;
  rd_treesNeeded : float;
  rd_transportMode : value;
  rd_cooledTransport : value
}.

Record Response : Type := {
  status : nat;
  success : bool;
  message : string;
  data : option ResponseData;
  error : option string
}.

Definition respond_400 (msg : string) : Response :=
  {| status := 400; success := false; message := msg;
     data := None; error := None |}.

Definition respond_500 (e : string) : Response :=
  {| status := 500; success := false;
     message := "Failed to calculate carbon footprint";
     data := None; error := Some e |}.

Definition respond_200 (d : ResponseData) : Response :=
  {| status := 200; success := true;
     message := "Calculation completed successfully";
     data := Some d; error := None |}.

Section WithEngine.

Variable E : Engine.

(** Lines 130-148.  [parseFloat] converts its argument to a String, which
    can throw.  The four coordinates are read before the call; inside
    [calculateDistance] each is converted with ToNumber where it is an
    operand of [-] or [*]: first in [lat2 - lat1], left operand first, then
    in [lon2 - lon1].  The later uses convert the same values again, to the
    same Numbers. *)
Definition computeFootprint
  (quantity tonnesPerUnit transportMode fuelTypes cooledTransport
   originCoords destinationCoords : value) : completion Footprint :=
  parsedQuantity <- parseFloat E quantity ;;
  parsedTonnes <- parseFloat E tonnesPerUnit ;;
  let totalWeight := parsedQuantity * parsedTonnes in
  lat1 <- property originCoords "lat" ;;
  lon1 <- property originCoords "lng" ;;
  lat2 <- property destinationCoords "lat" ;;
  lon2 <- property destinationCoords "lng" ;;
  numLat2 <- ToNumber E lat2 ;;
  numLat1 <- ToNumber E lat1 ;;
  numLon2 <- ToNumber E lon2 ;;
  numLon1 <- ToNumber E lon1 ;;
  let distance :=
    calculateDistance (floatOps E) numLat1 numLon1 numLat2 numLon2 in
  emissionFactor <-
    getEmissionFactor transportMode (js_or fuelTypes (VObj [])) cooledTransport ;;
  let carbonFootprint := totalWeight * distance * emissionFactor in
  let treesNeeded := Math_ceil (carbonFootprint / 21) in
  Return {| totalWeight := totalWeight;
            distance := distance;
            emissionFactor := emissionFactor;
            carbonFootprint := carbonFootprint;
            treesNeeded := treesNeeded |}.

(** The handler (lines 97-209): the response sent and the world left
    behind.  [body] is [req.body]; destructuring it throws when it is
    [undefined] or [null], and every exception ends in the [catch] clause.
    The document repeats the two [parseFloat] calls (lines 155 and 157). *)
Definition calculate_carbon (w : World) (body : value) : Response * World :=
  if negb (object_coercible body)
  then (respond_500 "TypeError: Cannot destructure req.body", w)
  else
  let userId := Get body "userId" in
  let quantity := Get body "quantity" in
  let unit := Get body "unit" in
  let tonnesPerUnit := Get body "tonnesPerUnit" in
  let cooledTransport := Get body "cooledTransport" in
  let transportMode := Get body "transportMode" in
  let fuelTypes := Get body "fuelTypes" in
  let origin := Get body "origin" in
  let destination := Get body "destination" in
  let originCoords := Get body "originCoords" in
  let destinationCoords := Get body "destinationCoords" in
  let originDetails := Get body "originDetails" in
  let destinationDetails := Get body "destinationDetails" in
  if negb (truthy quantity) || negb (truthy tonnesPerUnit)
     || negb (truthy transportMode) || negb (truthy origin)
     || negb (truthy destination)
  then (respond_400 "Missing required fields", w)
  else if negb (truthy originCoords) || negb (truthy destinationCoords)
  then (respond_400 "Origin and destination coordinates are required", w)
  else
    match (fp <- computeFootprint quantity tonnesPerUnit transportMode
                   fuelTypes cooledTransport originCoords destinationCoords ;;
           parsedQuantity <- parseFloat E quantity ;;
           parsedTonnes <- parseFloat E tonnesPerUnit ;;
           Return (fp, parsedQuantity, parsedTonnes)) with
    | Throw e => (respond_500 e, w)
    | Return (fp, parsedQuantity, parsedTonnes) =>
        let calculationData := {|
          cd_userId := js_or userId (VStr "anonymous");
          cd_quantity := parsedQuantity;
          cd_unit := unit;
          cd_tonnesPerUnit := parsedTonnes;
          cd_totalWeight := totalWeight fp;
          cd_cooledTransport := js_or cooledTransport (VBool false);
          cd_transportMode := transportMode;
          cd_fuelTypes := js_or fuelTypes (VObj []);
          cd_origin := origin;
          cd_destination := destination;
          cd_originCoords := originCoords;
          cd_destinationCoords := destinationCoords;
          cd_originDetails := js_or originDetails VNull;
          cd_destinationDetails := js_or destinationDetails VNull;
          cd_distance := presented E (distance fp) 2;
          cd_emissionFactor := presented E (emissionFactor fp) 4;
          cd_carbonFootprint := presented E (carbonFootprint fp) 2;
          cd_treesNeeded := treesNeeded fp;
          cd_calculatedAt := serverTimestamp;
          cd_createdAt := now w
        |} in
        match collection_add w calculationData with
        | Throw e => (respond_500 e, w)
        | Return (id, w') =>
            (respond_200 {|
               rd_id := id;
               rd_carbonFootprint := cd_carbonFootprint calculationData;
               rd_totalWeight := cd_totalWeight calculationData;
               rd_distance := cd_distance calculationData;
               rd_emissionFactor := cd_emissionFactor calculationData;
               rd_treesNeeded := cd_treesNeeded calculationData;
               rd_transportMode := cd_transportMode calculationData;
               rd_cooledTransport := cd_cooledTransport calculationData
             |}, w')
        end
    end.

End WithEngine.

End Handler.
Import Handler.

(** ** An engine to run the model on

    Truncated power series stand for the approximated functions, and the
    conversions with strings cover plain decimal literals.  It serves to
    evaluate the model on concrete requests; the general properties below
    hold for every engine. *)

Module Sample.

Local Open Scope float_scope.

(** [1 - x2/((k+1)(k+2)) * (1 - x2/((k+3)(k+4)) * ...)], [steps] factors deep. *)
Fixpoint alternating (steps : nat) (x2 : float) (k : Z) : float :=
  match steps with
  | O => 1
  | S n => 1 - x2 / Num.of_Z ((k + 1) * (k + 2)) * alternating n x2 (k + 2)
  end.

Definition series_sin (x : float) : float := x * alternating 14 (x * x) 1.

(** The cosine series, kept inside [[-1, 1]]. *)
Definition series_cos (x : float) : float :=
  let c := alternating 14 (x * x) 0 in
  if abs c <=? 1 then c else if c <? 0 then -1 else 1.

(** [t - t^3/3 + t^5/5 - ...] *)
Fixpoint atan_terms (steps : nat) (t2 : float) (k : Z) : float :=
  match steps with
  | O => 0
  | S n => 1 / Num.of_Z k - t2 * atan_terms n t2 (k + 2)
  end.

(** Arctangent: the argument is brought near [0] by
    [atan t = 2 atan (t / (1 + sqrt (1 + t^2)))], used three times. *)
Definition series_atan (t : float) : float :=
  let half u := u / (1 + PrimFloat.sqrt (1 + u * u)) in
  let u := half (half (half t)) in
  8 * (u * atan_terms 12 (u * u) 1).

(** The angle of [(x, y)] by quadrant; a result that would fall below zero
    for a [y] that is not negative is replaced by [0]. *)
Definition series_atan2 (y x : float) : float :=
  let angle :=
    if 0 <? x then series_atan (y / x)
    else if x <? 0 then
      (if y <? 0 then series_atan (y / x) - Math_PI
       else series_atan (y / x) + Math_PI)
    else if 0 <? y then Math_PI / 2
    else if y <? 0 then - (Math_PI / 2)
    else if PrimFloat.get_sign x then
      (if PrimFloat.get_sign y then - Math_PI else Math_PI)
    else y in
  if (angle <? 0) && negb (y <? 0) then 0 else angle.

(** Decimal digits of a natural number, and of a number with [d] digits
    after the point. *)
Definition digits_of (n : Z) : string :=
  NilZero.string_of_uint (N.to_uint (Z.to_N n)).

Fixpoint zeros (n : nat) : string :=
  match n with
  | O => ""
  | S k => String "0" (zeros k)
  end.

Definition fixed_point (n : Z) (d : nat) : string :=
  let p := (10 ^ Z.of_nat d)%Z in
  let frac := digits_of (n mod p) in
  match d with
  | O => digits_of n
  | _ => (digits_of (n / p) ++ "."
          ++ zeros (d - String.length frac) ++ frac)%string
  end.

(** [x.toFixed(d)]: the integer [n] nearest to [x * 10^d], the larger of
    two equally near, printed with [d] digits after the point. *)
Definition toFixed (x : float) (d : nat) : string :=
  match Prim2SF x with
  | S754_nan => "NaN"
  | S754_infinity s => if s then "-Infinity" else "Infinity"
  | S754_zero _ => fixed_point 0 d
  | S754_finite s m e =>
      let scaled := (2 * Zpos m * 10 ^ Z.of_nat d)%Z in
      let n := if (0 <=? e)%Z then (Zpos m * 2 ^ e * 10 ^ Z.of_nat d)%Z
               else ((scaled + 2 ^ (- e)) / 2 ^ (1 - e))%Z in
      ((if s then "-" else "") ++ fixed_point n d)%string
  end.

Definition digit_of (c : ascii) : option Z :=
  let n := Z.of_nat (nat_of_ascii c) in
  if ((48 <=? n) && (n <=? 57))%Z then Some (n - 48)%Z else None.

(** The longest run of digits at the head of [s]: its value, its length
    and what follows it. *)
Fixpoint read_digits (s : string) (acc : Z) (len : nat) : Z * nat * string :=
  match s with
  | EmptyString => (acc, len, s)
  | String c rest =>
      match digit_of c with
      | Some k => read_digits rest (10 * acc + k)%Z (S len)
      | None => (acc, len, s)
      end
  end.

(** The nearest Number to [n / 10^k]. *)
Definition decimal (negative : bool) (n : Z) (k : nat) : float :=
  match n with
  | Zpos m =>
      SF2Prim (SFdiv prec emax (S754_finite negative m 0)
                 (S754_finite false (Z.to_pos (10 ^ Z.of_nat k)) 0))
  | _ => if negative then neg_zero else 0
  end.

(** A literal [sign digits [. digits]] at the head of [s], and the rest. *)
Definition read_decimal (s : string) : option (float * string) :=
  let '(negative, s1) :=
    match s with
    | String "-" rest => (true, rest)
    | String "+" rest => (false, rest)
    | _ => (false, s)
    end in
  let '(int_part, int_len, s2) := read_digits s1 0 0 in
  let '(all, frac_len, s3) :=
    match s2 with
    | String "." rest =>
        let '(v, l, r) := read_digits rest int_part 0 in (v, l, r)
    | _ => (int_part, O, s2)
    end in
  match int_len, frac_len with
  | O, O => None
  | _, _ => Some (decimal negative all frac_len, s3)
  end.

Definition parse_prefix (s : string) : float :=
  match read_decimal s with
  | Some (x, _) => x
  | None => nan
  end.

Definition parse_whole (s : string) : float :=
  match s with
  | EmptyString => 0
  | _ => match read_decimal s with
         | Some (x, EmptyString) => x
         | _ => nan
         end
  end.

(** The shortest fixed-point text that reads back as [x]. *)
Fixpoint shortest (fuel d : nat) (x : float) : string :=
  let text := toFixed x d in
  match fuel with
  | O => text
  | S n => if Leibniz.eqb (parse_prefix text) x then text
           else shortest n (S d) x
  end.

Definition engine : Engine := {|
  approx_sin := series_sin;
  approx_cos := series_cos;
  approx_atan2 := series_atan2;
  Number_toString := shortest 20 0;
  StringToNumber := parse_whole;
  parseFloat_string := parse_prefix;
  Number_toFixed := toFixed
|}.

(** A store that takes every document, and a request from Paris to New
    York. *)
Definition world : World := {|
  emissionCalculations := [];
  accepts := fun _ => true;
  auto_id := fun n => ("doc" ++ index_string n)%string;
  now := "2024-01-01T00:00:00.000Z"
|}.

Definition paris : value := VObj [("lat", VNum 48.8566); ("lng", VNum 2.3522)].
Definition new_york : value := VObj [("lat", VNum 40.7128); ("lng", VNum (-74.006))].

Definition request (quantity : value) (origin destination : value) : value :=
  VObj [ ("userId", VStr "u1");
         ("quantity", quantity); ("unit", VStr "pallet");
         ("tonnesPerUnit", VNum 1.5);
         ("cooledTransport", VBool true);
         ("transportMode", VStr "truck");
         ("fuelTypes", VObj [("diesel", VBool true); ("bev", VBool true)]);
         ("origin", VStr "Paris"); ("destination", VStr "New York");
         ("originCoords", origin); ("destinationCoords", destination) ].




(** The same store later on: one document in, another clock. *)
Definition later_world : World := {|
  emissionCalculations :=
    emissionCalculations
      (snd (calculate_carbon engine world (request (VNum 3) new_york paris)));
  accepts := fun _ => true;
  auto_id := fun n => ("doc" ++ index_string n)%string;
  now := "2024-06-30T12:00:00.000Z"
|}.

End Sample.



(** The real number a finite Number stands for. *)
Definition SF2R (x : spec_float) : R :=
  match x with
  | S754_finite s m e => (IZR (cond_Zopp s (Zpos m)) * powerRZ 2 e)%R
  | _ => 0%R
  end.

Definition Number_value (x : float) : R := SF2R (Prim2SF x).

(** [t] is the ceiling of [x]: the integer that is not below [x] and less
    than one above it.  An infinity and [NaN] have themselves for a
    ceiling. *)
Definition is_ceiling (x t : float) : Prop :=
  if PrimFloat.is_finite x
  then PrimFloat.is_finite t = true
       /\ exists n : Z, Number_value t = IZR n
                        /\ (IZR n - 1 < Number_value x <= IZR n)%R
  else t = x.

(** The Numbers at most [n] steps above and below [c]. *)
Fixpoint steps_up (n : nat) (c : float) : list float :=
  match n with
  | O => []
  | S k => next_up c :: steps_up k (next_up c)
  end.

Fixpoint steps_down (n : nat) (c : float) : list float :=
  match n with
  | O => []
  | S k => next_down c :: steps_down k (next_down c)
  end.

Definition neighbours (n : nat) (c : float) : list float :=
  c :: steps_up n c ++ steps_down n c.

(** [y] is within [n] units in the last place of [c]. *)
Definition near (n : nat) (c y : float) : bool :=
  existsb (Leibniz.eqb y) (neighbours n c).

(** What the quarter great circle asks of an engine: a sine within one
    unit in the last place at the angle of 45 degrees as the code computes
    it, and an arctangent within eight units in the last place of a
    quarter of [PI] when both arguments are within four of the square root
    of one half. *)
Definition accurate_sine (E : Engine) : Prop :=
  near 1 0.7071067811865475 (approx_sin E 0.7853981633974483) = true.

Definition accurate_arctangent (E : Engine) : Prop :=
  forall y x : float,
    near 4 0.7071067811865476 y = true ->
    near 4 0.7071067811865476 x = true ->
    near 8 0.7853981633974483 (approx_atan2 E y x) = true.

(** The emission-factor rules in the words of the specification
    (section 4.2): the per-fuel table, with [0.12] for a tag outside it, and
    the arithmetic mean as Numbers compute it, summing from the left. *)
Definition fuel_factor_spec (fuel : string) : float :=
  if String.eqb fuel "diesel" then 0.12%float
  else if String.eqb fuel "cng" then 0.10%float
  else if String.eqb fuel "bev" then 0.04%float
  else if String.eqb fuel "hvo" then 0.08%float
  else 0.12%float.

Definition mean_spec (xs : list float) : float :=
  (fold_left PrimFloat.add xs 0 / Num.of_nat (List.length xs))%float.

(** The fuel tags of a selection: the keys holding a truthy value. *)
Definition selected_fuels (fuelTypes : value) : list string :=
  filter (fun key => truthy (Get fuelTypes key)) (map fst (own_entries fuelTypes)).

(** Keys that every object literal answers from [Object.prototype]. *)
Definition inherited (k : string) : bool :=
  mem_string k Object_prototype_functions || String.eqb k "__proto__".

(** The computed part of a success response: everything but the document
    id and the echoed inputs. *)
Definition footprint_of (d : ResponseData) : float * float * float * float * float :=
  (rd_totalWeight d, rd_distance d, rd_emissionFactor d,
   rd_carbonFootprint d, rd_treesNeeded d).

(** The same for a stored document. *)
Definition stored_footprint (d : CalculationData)
  : float * float * float * float * float :=
  (cd_totalWeight d, cd_distance d, cd_emissionFactor d,
   cd_carbonFootprint d, cd_treesNeeded d).






(** ** The routes on stored calculations *)

Module Routes.

(** [a === b] for two values that share no object (one read from the
    store, one parsed from a request): primitives compare by value, with
    [NaN] unequal to itself and the two zeros equal; two objects are never
    the same object. *)
Definition strict_equal (a b : value) : bool :=
  match a, b with
  | VUndefined, VUndefined => true
  | VNull, VNull => true
  | VBool x, VBool y => Bool.eqb x y
  | VNum x, VNum y => PrimFloat.eqb x y
  | VStr x, VStr y => String.eqb x y
  | _, _ => false
  end.

(** Whether the store answers the reads and the deletions of a request: it
    may be unreachable, or refuse the document path. *)
Record Availability : Type := {
  reads : bool;
  deletes : bool
}.

(** The document at [emissionCalculations/id], if there is one. *)
Definition find_calculation (w : World) (id : string) : option CalculationData :=
  option_map snd
    (find (fun entry => String.eqb (fst entry) id) (emissionCalculations w)).

(** The world without the document at [emissionCalculations/id]. *)
Definition without_calculation (w : World) (id : string) : World := {|
  emissionCalculations :=
    filter (fun entry => negb (String.eqb (fst entry) id))
      (emissionCalculations w);
  accepts := accepts w;
  auto_id := auto_id w;
  now := now w
|}.

(** [await db.collection('emissionCalculations').doc(id).get()]: the
    snapshot ([None] when [doc.exists] is false), or a rejection. *)
Definition doc_get (av : Availability) (w : World) (id : string)
  : completion (option CalculationData) :=
  if reads av then Return (find_calculation w id)
  else Throw "store: read failed".

(** [await db.collection('emissionCalculations').doc(id).delete()] *)
Definition doc_delete (av : Availability) (w : World) (id : string)
  : completion World :=
  if deletes av then Return (without_calculation w id)
  else Throw "store: delete failed".

(** The JSON body of a response: [success], [message], [data], [error]. *)
Record Reply (A : Type) : Type := {
  reply_status : nat;
  reply_success : bool;
  reply_message : option string;
  reply_data : option A;
  reply_error : option string
}.
Arguments reply_status {A}.
Arguments reply_success {A}.
Arguments reply_message {A}.
Arguments reply_data {A}.
Arguments reply_error {A}.

Definition failure {A : Type} (code : nat) (msg : string) (e : option string)
  : Reply A :=
  {| reply_status := code; reply_success := false; reply_message := Some msg;
     reply_data := None; reply_error := e |}.

(** [GET /api/calculation/:id] (lines 249-278): the stored document with
    its id. *)
Definition get_calculation (av : Availability) (w : World) (id : string)
  : Reply (string * CalculationData) :=
  match doc_get av w id with
  | Throw e => failure 500 "Failed to fetch calculation" (Some e)
  | Return None => failure 404 "Calculation not found" None
  | Return (Some d) =>
      {| reply_status := 200; reply_success := true; reply_message := None;
         reply_data := Some (id, d); reply_error := None |}
  end.

(** [DELETE /api/calculation/:id] (lines 281-318): [body] is [req.body],
    from which [userId] is destructured. *)
Definition delete_calculation (av : Availability) (w : World) (id : string)
  (body : value) : Reply unit * World :=
  if negb (object_coercible body)
  then (failure 500 "Failed to delete calculation"
          (Some "TypeError: Cannot destructure req.body"), w)
  else
  let userId := Get body "userId" in
  match doc_get av w id with
  | Throw e => (failure 500 "Failed to delete calculation" (Some e), w)
  | Return None => (failure 404 "Calculation not found" None, w)
  | Return (Some d) =>
      if negb (strict_equal (cd_userId d) userId)
      then (failure 403 "Unauthorized to delete this calculation" None, w)
      else
        match doc_delete av w id with
        | Throw e => (failure 500 "Failed to delete calculation" (Some e), w)
        | Return w' =>
            ({| reply_status := 200; reply_success := true;
                reply_message := Some "Calculation deleted successfully";
                reply_data := None; reply_error := None |}, w')
        end
  end.

End Routes.
Import Routes.

(** Requests and store conditions to run the routes on. *)
Module Scenario.

Definition online : Availability := {| reads := true; deletes := true |}.

(** A request that names no user. *)
Definition anonymous_request : value :=
  VObj [ ("quantity", VNum 4); ("unit", VStr "crate");
         ("tonnesPerUnit", VNum 0.5);
         ("transportMode", VStr "train");
         ("origin", VStr "Paris"); ("destination", VStr "New York");
         ("originCoords", Sample.paris);
         ("destinationCoords", Sample.new_york) ].


(** The world after the sample request was answered, and the id it got. *)
Definition posted : Response * World :=
  calculate_carbon Sample.engine Sample.world
    (Sample.request (VNum 10) Sample.paris Sample.new_york).

Definition posted_anonymously : Response * World :=
  calculate_carbon Sample.engine Sample.world anonymous_request.

End Scenario.

(** * Properties *)

(** ** Binary64 arithmetic

    Facts about the IEEE operations, from their specification on
    [spec_float]. *)

Module Binary64.

Local Open Scope float_scope.

(** Turning an equation between Numbers into one between their
    specifications. *)
Ltac by_spec :=
  apply Prim2SF_inj;
  rewrite ?opp_spec, ?mul_spec, ?div_spec, ?add_spec, ?sub_spec, ?opp_spec.

Lemma SFcompare_refl_finite s m e :
  SFcompare (S754_finite s m e) (S754_finite s m e) = Some Eq.
Proof.
  simpl. destruct s; rewrite Z.compare_refl;
  change (Pos.compare_cont Eq m m) with (Pos.compare m m);
  rewrite Pos.compare_refl; reflexivity.
Qed.

Lemma is_nan_SF x :
  PrimFloat.is_nan x = match Prim2SF x with S754_nan => true | _ => false end.
Proof.
  unfold PrimFloat.is_nan. rewrite eqb_spec. unfold SFeqb.
  destruct (Prim2SF x) as [s|s| |s m e].
  - reflexivity.
  - destruct s; reflexivity.
  - reflexivity.
  - rewrite SFcompare_refl_finite. reflexivity.
Qed.

Lemma is_zero_SF x :
  PrimFloat.is_zero x = match Prim2SF x with S754_zero _ => true | _ => false end.
Proof.
  unfold PrimFloat.is_zero. rewrite eqb_spec. unfold SFeqb.
  change (Prim2SF zero) with (S754_zero false).
  destruct (Prim2SF x) as [s|s| |s m e]; try reflexivity; destruct s; reflexivity.
Qed.

Lemma is_infinity_SF x :
  PrimFloat.is_infinity x
  = match Prim2SF x with S754_infinity _ => true | _ => false end.
Proof.
  unfold PrimFloat.is_infinity. rewrite eqb_spec, abs_spec. unfold SFeqb.
  change (Prim2SF infinity) with (S754_infinity false).
  destruct (Prim2SF x) as [s|s| |s m e]; reflexivity.
Qed.

Lemma is_finite_SF x :
  PrimFloat.is_finite x
  = match Prim2SF x with
    | S754_zero _ | S754_finite _ _ _ => true
    | _ => false
    end.
Proof.
  unfold PrimFloat.is_finite. rewrite is_nan_SF, is_infinity_SF.
  destruct (Prim2SF x); reflexivity.
Qed.

(** Multiplication commutes, bit for bit. *)
Lemma mul_comm x y : x * y = y * x.
Proof.
  by_spec. unfold SF64mul, SFmul.
  destruct (Prim2SF x) as [s|s| |s m e], (Prim2SF y) as [s'|s'| |s' m' e'];
    try reflexivity; try (rewrite xorb_comm; reflexivity).
  rewrite xorb_comm, Pos.mul_comm, Z.add_comm. reflexivity.
Qed.

(** [x - x] is [+0] for every finite [x]. *)
Lemma sub_diag x : PrimFloat.is_finite x = true -> x - x = 0.
Proof.
  rewrite is_finite_SF. intros H. apply Prim2SF_inj. rewrite sub_spec.
  change (Prim2SF 0) with (S754_zero false).
  destruct (Prim2SF x) as [s|s| |s m e]; try discriminate.
  - destruct s; reflexivity.
  - unfold SF64sub, SFsub. rewrite Z.sub_diag. reflexivity.
Qed.

(** A finite number times a zero is a zero. *)
Lemma mul_zero_r x z :
  PrimFloat.is_finite x = true -> PrimFloat.is_zero z = true ->
  PrimFloat.is_zero (x * z) = true.
Proof.
  rewrite is_finite_SF, !is_zero_SF, mul_spec. unfold SF64mul, SFmul.
  destruct (Prim2SF x), (Prim2SF z); try discriminate; reflexivity.
Qed.

Lemma mul_zero_l z x :
  PrimFloat.is_zero z = true -> PrimFloat.is_finite x = true ->
  PrimFloat.is_zero (z * x) = true.
Proof. intros. rewrite mul_comm. now apply mul_zero_r. Qed.

(** [+0] plus a zero of either sign is [+0]. *)
Lemma add_zero_zero z : PrimFloat.is_zero z = true -> 0 + z = 0.
Proof.
  rewrite is_zero_SF. intros H. apply Prim2SF_inj. rewrite add_spec.
  change (Prim2SF 0) with (S754_zero false).
  destruct (Prim2SF z) as [s| | |]; try discriminate.
  destruct s; reflexivity.
Qed.

(** A zero divided by a finite non-zero number is a zero. *)
Lemma div_zero_l z y :
  PrimFloat.is_zero z = true ->
  PrimFloat.is_finite y = true -> PrimFloat.is_zero y = false ->
  PrimFloat.is_zero (z / y) = true.
Proof.
  rewrite is_finite_SF, !is_zero_SF, div_spec. unfold SF64div, SFdiv.
  destruct (Prim2SF z), (Prim2SF y); try discriminate; reflexivity.
Qed.

Lemma is_zero_finite z : PrimFloat.is_zero z = true -> PrimFloat.is_finite z = true.
Proof. rewrite is_zero_SF, is_finite_SF. destruct (Prim2SF z); easy. Qed.

(** [Math.ceil] returns a zero as it is. *)
Lemma Math_ceil_zero z : PrimFloat.is_zero z = true -> Math_ceil z = z.
Proof.
  rewrite is_zero_SF. unfold Math_ceil. destruct (Prim2SF z); easy.
Qed.

(** *** Products of numbers of magnitude at most one do not overflow *)

Lemma digits2_pos_log2 p : Zpos (digits2_pos p) = (Z.log2 (Zpos p) + 1)%Z.
Proof.
  assert (Hs : forall q, digits2_pos q = Pos.size q)
    by (induction q; simpl; congruence).
  rewrite Hs. destruct p; simpl; lia.
Qed.

Lemma Zdigits2_lt_pow2 z k :
  (0 <= z < 2 ^ k)%Z -> (0 <= k)%Z -> (Zdigits2 z <= k)%Z.
Proof.
  intros [Hz Hzk] Hk. destruct z as [|p|p]; [simpl; lia| |lia].
  simpl. rewrite digits2_pos_log2.
  assert (Z.log2 (Zpos p) < k)%Z by (apply Z.log2_lt_pow2; lia). lia.
Qed.

Lemma Zdigits2_gt z : (0 <= z)%Z -> (z < 2 ^ Zdigits2 z)%Z.
Proof.
  intros Hz. destruct z as [|p|p]; [simpl; lia| |lia].
  unfold Zdigits2. rewrite digits2_pos_log2.
  pose proof (Z.log2_spec (Zpos p) ltac:(lia)) as [_ H].
  now rewrite Z.add_1_r.
Qed.

Lemma shr_1_bounds mrs :
  (0 <= shr_m mrs)%Z -> (0 <= shr_m (shr_1 mrs) <= shr_m mrs)%Z.
Proof.
  destruct mrs as [m r s]. simpl. intros Hm.
  destruct m as [|p|p]; [simpl; lia| |lia].
  destruct p; simpl; lia.
Qed.

Lemma iter_shr_1_bounds p : forall mrs,
  (0 <= shr_m mrs)%Z -> (0 <= shr_m (SpecFloat.iter_pos shr_1 p mrs) <= shr_m mrs)%Z.
Proof.
  induction p as [p IH|p IH|]; intros mrs Hm; simpl.
  - pose proof (shr_1_bounds mrs Hm) as H1.
    pose proof (IH (shr_1 mrs) ltac:(lia)) as H2.
    pose proof (IH (SpecFloat.iter_pos shr_1 p (shr_1 mrs)) ltac:(lia)). lia.
  - pose proof (IH mrs Hm) as H1.
    pose proof (IH (SpecFloat.iter_pos shr_1 p mrs) ltac:(lia)). lia.
  - now apply shr_1_bounds.
Qed.

Lemma round_nearest_even_bounds m l :
  (m <= round_nearest_even m l <= m + 1)%Z.
Proof.
  destruct l as [|[]]; simpl; try lia. destruct (Z.even m); lia.
Qed.

(** Shifting to the format's exponent: the mantissa does not grow, and the
    exponent is the larger of the old one and the format's. *)
Lemma shr_fexp_bounds m e l mrs' e' :
  (0 <= m)%Z ->
  shr_fexp prec emax m e l = (mrs', e') ->
  (0 <= shr_m mrs' <= m)%Z
  /\ (e' <= Z.max e (fexp prec emax (Zdigits2 m + e)))%Z.
Proof.
  intros Hm. unfold shr_fexp, shr.
  assert (Hrec : shr_m (shr_record_of_loc m l) = m)
    by (destruct l as [|[]]; reflexivity).
  destruct (fexp prec emax (Zdigits2 m + e) - e)%Z as [|p|p] eqn:Hn;
    intros [= <- <-].
  - rewrite Hrec. lia.
  - pose proof (iter_shr_1_bounds p (shr_record_of_loc m l)) as H.
    rewrite Hrec in H. specialize (H Hm). lia.
  - rewrite Hrec. lia.
Qed.

Lemma binary_round_aux_small sx mx ex :
  (0 < mx < 2 ^ 106)%Z -> (ex <= -104)%Z ->
  match binary_round_aux prec emax sx mx ex loc_Exact with
  | S754_zero _ | S754_finite _ _ _ => True
  | _ => False
  end.
Proof.
  intros Hmx Hex. unfold binary_round_aux.
  destruct (shr_fexp prec emax mx ex loc_Exact) as [mrs' e'] eqn:H1.
  apply shr_fexp_bounds in H1; [|lia]. destruct H1 as [Hm' He'].
  set (m1 := round_nearest_even (shr_m mrs') (loc_of_shr_record mrs')).
  pose proof (round_nearest_even_bounds (shr_m mrs') (loc_of_shr_record mrs'))
    as Hr.
  fold m1 in Hr.
  destruct (shr_fexp prec emax m1 e' loc_Exact) as [mrs'' e''] eqn:H2.
  apply shr_fexp_bounds in H2; [|lia]. destruct H2 as [Hm'' He''].
  assert (Hd0 : (Zdigits2 mx <= 106)%Z) by (apply Zdigits2_lt_pow2; lia).
  assert (Hd1 : (Zdigits2 m1 <= 107)%Z).
  { apply Zdigits2_lt_pow2; [|lia].
    change (2 ^ 107)%Z with (2 * 2 ^ 106)%Z. lia. }
  unfold fexp, SpecFloat.emin, prec, emax in *.
  destruct (shr_m mrs'') as [|p|p]; [exact I| |lia].
  assert (Hle : (e'' <=? 1024 - 53)%Z = true) by (apply Z.leb_le; lia).
  rewrite Hle. exact I.
Qed.

(** A number of magnitude at most [1] is a zero, or [m * 2^e] with
    [m < 2^53] and [e <= -52]. *)
Lemma at_most_one_SF c :
  (abs c <=? 1) = true ->
  match Prim2SF c with
  | S754_zero _ => True
  | S754_finite _ m e => (Zpos m < 2 ^ 53)%Z /\ (e <= -52)%Z
  | _ => False
  end.
Proof.
  rewrite leb_spec, abs_spec.
  change (Prim2SF 1) with (S754_finite false 4503599627370496 (-52)).
  pose proof (Prim2SF_valid c) as Hv.
  destruct (Prim2SF c) as [s|s| |s m e];
    cbv beta iota delta [SFleb SFabs SFcompare];
    try exact (fun _ => I); try discriminate.
  intros Hle. split.
  - unfold valid_binary, bounded, canonical_mantissa in Hv.
    apply andb_prop in Hv. destruct Hv as [Hc _].
    apply Z.eqb_eq in Hc.
    pose proof (Zdigits2_gt (Zpos m) ltac:(lia)) as Hg.
    unfold Zdigits2 in Hg.
    unfold fexp, SpecFloat.emin, prec, emax in Hc.
    assert (Hd : (Zpos (digits2_pos m) <= 53)%Z) by lia.
    eapply Z.lt_le_trans; [exact Hg|].
    apply Z.pow_le_mono_r; lia.
  - destruct (Z.compare_spec e (-52)) as [->|Hlt|Hgt];
      [lia|lia|destruct s; discriminate].
Qed.

Lemma mul_at_most_one_finite c1 c2 :
  (abs c1 <=? 1) = true -> (abs c2 <=? 1) = true ->
  PrimFloat.is_finite (c1 * c2) = true.
Proof.
  intros H1 H2. apply at_most_one_SF in H1, H2.
  rewrite is_finite_SF, mul_spec. unfold SF64mul, SFmul.
  destruct (Prim2SF c1) as [s1|s1| |s1 m1 e1]; try contradiction;
  destruct (Prim2SF c2) as [s2|s2| |s2 m2 e2]; try contradiction;
    try reflexivity.
  destruct H1 as [Hm1 He1], H2 as [Hm2 He2].
  pose proof (binary_round_aux_small (xorb s1 s2) (Zpos (m1 * m2)) (e1 + e2))
    as H.
  destruct (binary_round_aux prec emax (xorb s1 s2) (Zpos (m1 * m2)) (e1 + e2)
              loc_Exact); try reflexivity; exfalso; apply H; try lia;
    (split; [lia|]; rewrite Pos2Z.inj_mul;
     change (2 ^ 106)%Z with (2 ^ 53 * 2 ^ 53)%Z;
     apply Z.mul_lt_mono_nonneg; lia).
Qed.

(** *** Signs *)

















(** *** Integers among the Numbers, and the ceiling *)

(** A mantissa of 53 digits at an exponent of the format is left as it is. *)
Lemma binary_round_aux_exact s m e :
  Zpos (digits2_pos m) = 53%Z -> (-1074 <= e <= 971)%Z ->
  binary_round_aux prec emax s (Zpos m) e loc_Exact = S754_finite s m e.
Proof.
  intros Hd He. unfold binary_round_aux, shr_fexp.
  cbn [Zdigits2 shr_record_of_loc]. rewrite Hd.
  assert (Hn : (fexp prec emax (53 + e) - e = 0)%Z).
  { unfold fexp, SpecFloat.emin. change prec with 53%Z. change emax with 1024%Z. lia. }
  rewrite Hn. cbn [shr shr_m loc_of_shr_record round_nearest_even Zdigits2 shr_record_of_loc].
  rewrite Hd, Hn. cbn [shr shr_m].
  change (emax - prec)%Z with 971%Z.
  destruct (Z.leb_spec e 971); [reflexivity|lia].
Qed.

Lemma pos_iter_xO p d : Zpos (Pos.iter xO p d) = (Zpos p * 2 ^ Zpos d)%Z.
Proof.
  change (Pos.iter xO p d) with (shift_pos d p).
  rewrite shift_pos_correct. rewrite Z.pow_pos_fold. lia.
Qed.

Lemma binary_normalize_exact k :
  (0 < k < 2 ^ 53)%Z ->
  exists m e,
    binary_normalize prec emax k 0 false = S754_finite false m e
    /\ (-52 <= e <= 0)%Z /\ Zpos m = (k * 2 ^ (- e))%Z
    /\ Zpos (digits2_pos m) = 53%Z.
Proof.
  intros [Hlo Hhi]. destruct k as [|p|p]; try lia.
  unfold binary_normalize, binary_round.
  pose proof (digits2_pos_log2 p) as HD.
  assert (Hlog : (0 <= Z.log2 (Zpos p) < 53)%Z).
  { split; [apply Z.log2_nonneg|]. apply Z.log2_lt_pow2; lia. }
  set (D := Zpos (digits2_pos p)) in *.
  assert (Hf : fexp prec emax (D + 0) = (D - 53)%Z).
  { unfold fexp, SpecFloat.emin. change prec with 53%Z. change emax with 1024%Z. lia. }
  rewrite Hf. unfold shl_align.
  destruct (D - 53 - 0)%Z as [|n|n] eqn:Hn; try lia.
  - exists p, 0%Z. split.
    + apply binary_round_aux_exact; [fold D; lia|lia].
    + repeat split; try lia.
  - exists (Pos.iter xO p n), (D - 53)%Z.
    assert (Hm : Zpos (Pos.iter xO p n) = (Zpos p * 2 ^ Zpos n)%Z) by apply pos_iter_xO.
    assert (Hdig : Zpos (digits2_pos (Pos.iter xO p n)) = 53%Z).
    { rewrite digits2_pos_log2, Hm. rewrite Z.log2_mul_pow2 by lia. lia. }
    split; [apply binary_round_aux_exact; [exact Hdig|lia]|].
    repeat split; try lia; try exact Hdig.
    rewrite Hm. f_equal. f_equal. lia.
Qed.

Lemma Prim2SF_of_Z k :
  (0 < k < 2 ^ 53)%Z ->
  exists m e,
    Prim2SF (of_Z k) = S754_finite false m e
    /\ (e <= 0)%Z /\ Zpos m = (k * 2 ^ (- e))%Z.
Proof.
  intros Hk. destruct (binary_normalize_exact k Hk) as (m & e & Hb & He & Hm & Hd).
  exists m, e. split; [|split; [lia|exact Hm]].
  unfold of_Z. rewrite Hb. apply Prim2SF_SF2Prim.
  unfold SpecFloat.valid_binary, SpecFloat.bounded, canonical_mantissa.
  rewrite Hd.
  assert (Hf : fexp prec emax (53 + e) = e).
  { unfold fexp, SpecFloat.emin. change prec with 53%Z. change emax with 1024%Z. lia. }
  rewrite Hf, Z.eqb_refl. change (emax - prec)%Z with 971%Z.
  destruct (Z.leb_spec e 971); [reflexivity|lia].
Qed.

Lemma IZR_pow2 n : (0 <= n)%Z -> IZR (2 ^ n) = powerRZ 2 n.
Proof.
  intros Hn. destruct n as [|p|p]; try lia; [reflexivity|].
  rewrite <- Z.pow_pos_fold. apply Zpower_pos_powerRZ.
Qed.

Lemma powerRZ_neg_pow2 e : (e <= 0)%Z -> (IZR (2 ^ (- e)) * powerRZ 2 e = 1)%R.
Proof.
  intros He. rewrite IZR_pow2 by lia.
  rewrite <- powerRZ_add by lra. replace (- e + e)%Z with 0%Z by lia. reflexivity.
Qed.

Lemma Number_value_of_Z k :
  (0 <= k < 2 ^ 53)%Z ->
  PrimFloat.is_finite (of_Z k) = true /\ Number_value (of_Z k) = IZR k.
Proof.
  intros [Hlo Hhi]. destruct (Z.eq_dec k 0) as [->|Hne].
  - split; [reflexivity|]. unfold Number_value.
    change (Prim2SF (of_Z 0)) with (S754_zero false). reflexivity.
  - destruct (Prim2SF_of_Z k ltac:(lia)) as (m & e & Hp & He & Hm).
    split; [rewrite is_finite_SF, Hp; reflexivity|].
    unfold Number_value. rewrite Hp. cbn [SF2R cond_Zopp].
    rewrite Hm, mult_IZR, Rmult_assoc, powerRZ_neg_pow2 by assumption. ring.
Qed.

Lemma valid_mantissa x s m e :
  Prim2SF x = S754_finite s m e -> (Zpos m < 2 ^ 53)%Z /\ (-1074 <= e)%Z.
Proof.
  intros Hx. pose proof (Prim2SF_valid x) as Hv. rewrite Hx in Hv.
  unfold SpecFloat.valid_binary, SpecFloat.bounded, canonical_mantissa in Hv.
  apply andb_prop in Hv. destruct Hv as [Hc _].
  apply Z.eqb_eq in Hc. unfold fexp, SpecFloat.emin in Hc.
  change prec with 53%Z in Hc. change emax with 1024%Z in Hc.
  rewrite digits2_pos_log2 in Hc.
  split; [|lia].
  apply Z.log2_lt_pow2; lia.
Qed.

Lemma Number_value_opp x : Number_value (- x) = (- Number_value x)%R.
Proof.
  unfold Number_value. rewrite opp_spec.
  destruct (Prim2SF x) as [s|s| |s m e]; cbn [SFopp SF2R]; try ring.
  destruct s; cbn [negb cond_Zopp];
    change (Z.neg m) with (- Z.pos m)%Z; rewrite ?opp_IZR; ring.
Qed.

Lemma is_finite_opp x : PrimFloat.is_finite (- x) = PrimFloat.is_finite x.
Proof. rewrite !is_finite_SF, opp_spec. now destruct (Prim2SF x). Qed.

(** The quotient and the remainder, over the reals. *)
Lemma real_quotient (m d q r : Z) :
  (0 < d)%Z -> m = (d * q + r)%Z -> (0 <= r < d)%Z ->
  (IZR m * / IZR d = IZR q + IZR r * / IZR d)%R
  /\ (0 <= IZR r * / IZR d < 1)%R.
Proof.
  intros Hd Hm [Hr0 Hr1].
  assert (Hd' : (0 < IZR d)%R) by (apply IZR_lt; exact Hd).
  assert (Hr0' : (0 <= IZR r)%R) by (apply IZR_le; exact Hr0).
  assert (Hr1' : (IZR r < IZR d)%R) by (apply IZR_lt; exact Hr1).
  assert (Hi : (0 < / IZR d)%R) by (apply Rinv_0_lt_compat; exact Hd').
  split.
  - rewrite Hm, plus_IZR, mult_IZR. field. lra.
  - split.
    + apply Rmult_le_pos; lra.
    + apply (Rmult_lt_reg_r (IZR d)); [exact Hd'|].
      rewrite Rmult_assoc, Rinv_l by lra. lra.
Qed.

(** [Math.ceil] is the ceiling. *)
Lemma Math_ceil_is_ceiling x : is_ceiling x (Math_ceil x).
Proof.
  unfold is_ceiling. rewrite is_finite_SF.
  destruct (Prim2SF x) as [s|s| |s m e] eqn:Hx;
    try (unfold Math_ceil; rewrite Hx; reflexivity).
  - assert (HM : Math_ceil x = x) by (unfold Math_ceil; rewrite Hx; reflexivity).
    rewrite HM. split; [rewrite is_finite_SF, Hx; reflexivity|].
    exists 0%Z. unfold Number_value. rewrite Hx. cbn [SF2R]. lra.
  - destruct (valid_mantissa x s m e Hx) as [Hm He].
    unfold Math_ceil. rewrite Hx.
    destruct (Z.leb_spec 0 e) as [Hpos|Hneg].
    + split; [rewrite is_finite_SF, Hx; reflexivity|].
      exists (cond_Zopp s (Zpos m) * 2 ^ e)%Z.
      unfold Number_value. rewrite Hx. cbn [SF2R].
      rewrite mult_IZR, IZR_pow2 by assumption. lra.
    + cbv zeta.
      set (d := (2 ^ (- e))%Z).
      assert (Hd : (2 <= d)%Z).
      { unfold d. change 2%Z with (2 ^ 1)%Z at 1. apply Z.pow_le_mono_r; lia. }
      pose proof (Z.div_mod (Zpos m) d ltac:(lia)) as Hdm.
      pose proof (Z.mod_pos_bound (Zpos m) d ltac:(lia)) as Hr.
      set (q := (Zpos m / d)%Z) in *. set (r := (Zpos m mod d)%Z) in *.
      assert (Hq0 : (0 <= q)%Z) by (unfold q; apply Z.div_pos; lia).
      assert (Hq1 : (q + 1 < 2 ^ 53)%Z) by nia.
      destruct (real_quotient (Zpos m) d q r ltac:(lia) Hdm Hr) as [Hreal Hfrac].
      assert (Hval : Number_value x
                     = (IZR (cond_Zopp s (Zpos m)) * / IZR d)%R).
      { unfold Number_value. rewrite Hx. cbn [SF2R]. f_equal.
        unfold d. rewrite IZR_pow2 by lia. rewrite powerRZ_neg', Rinv_inv.
        reflexivity. }
      rewrite Hval.
      destruct s; cbn [cond_Zopp].
      * change (Z.neg m) with (- Z.pos m)%Z. rewrite opp_IZR.
        destruct (Z.eqb_spec q 0) as [Hq|Hq].
        -- split; [reflexivity|]. exists 0%Z.
           split; [reflexivity|]. rewrite Hq in Hreal.
           assert (Hpos' : (0 < IZR (Z.pos m) * / IZR d)%R).
           { apply Rmult_lt_0_compat; [apply IZR_lt; lia|].
             apply Rinv_0_lt_compat, IZR_lt; lia. }
           lra.
        -- destruct (Number_value_of_Z q ltac:(lia)) as [Hfin Hv].
           split; [rewrite is_finite_opp; exact Hfin|].
           exists (- q)%Z. rewrite Number_value_opp, Hv, opp_IZR.
           split; [reflexivity|]. lra.
      * destruct (Z.eqb_spec r 0) as [Hr0|Hr0].
        -- destruct (Number_value_of_Z q ltac:(lia)) as [Hfin Hv].
           split; [exact Hfin|]. exists q. split; [exact Hv|].
           rewrite Hr0 in Hreal. lra.
        -- destruct (Number_value_of_Z (q + 1) ltac:(lia)) as [Hfin Hv].
           split; [exact Hfin|]. exists (q + 1)%Z. split; [exact Hv|].
           rewrite plus_IZR.
           assert (Hrpos : (0 < IZR r * / IZR d)%R).
           { apply Rmult_lt_0_compat; [apply IZR_lt; lia|].
             apply Rinv_0_lt_compat, IZR_lt; lia. }
           lra.
Qed.



End Binary64.
Import Binary64.

(** ** The distance, as the engine computes it *)

Section FloatDistance.

Variable E : Engine.

Local Open Scope float_scope.




(** With equal finite coordinates every trigonometric call but the cosine
    of the latitude falls on an argument where ECMAScript fixes the result,
    and the distance is [+0]. *)
Lemma calculateDistance_same_point (lat lng : float) :
  PrimFloat.is_finite lat = true -> PrimFloat.is_finite lng = true ->
  (abs (Math_cos E (lat * Math_PI / 180)) <=? 1) = true ->
  calculateDistance (floatOps E) lat lng lat lng = 0.
Proof.
  intros Hlat Hlng Hcos. unfold calculateDistance.
  cbn [floatOps nlit nPI nadd nsub nmul ndiv nsin ncos nsqrt natan2].
  rewrite !sub_diag by assumption.
  change (0 * Math_PI / Num.of_Z 180 / Num.of_Z 2) with 0.
  change (Math_sin E 0) with 0.
  change (Num.of_Z 180) with 180.
  set (c := Math_cos E (lat * Math_PI / 180)) in *.
  assert (Hp : PrimFloat.is_finite (c * c) = true)
    by now apply mul_at_most_one_finite.
  assert (Hz1 : PrimFloat.is_zero (c * c * 0) = true)
    by (apply mul_zero_r; [assumption|reflexivity]).
  assert (Hz2 : PrimFloat.is_zero (c * c * 0 * 0) = true)
    by (apply mul_zero_r; [now apply is_zero_finite|reflexivity]).
  change (0 * 0) with 0.
  rewrite (add_zero_zero _ Hz2).
  reflexivity.
Qed.



End FloatDistance.



(** ** The emission factor *)

Section EmissionFacts.

Local Open Scope float_scope.

Lemma strict_equals_false (v : value) (s : string) :
  v <> VStr s -> (v === s) = false.
Proof.
  intros Hne. destruct v; try reflexivity. simpl.
  destruct (String.eqb_spec s0 s) as [->|]; [contradiction|reflexivity].
Qed.

(** Cooling multiplies the resolved factor, whatever the mode. *)
Lemma getEmissionFactor_cooling (mode fuels cooled : value) :
  getEmissionFactor mode fuels cooled
  = cmap (fun ef => if truthy cooled then ef * 1.3 else ef)
      (getEmissionFactor mode fuels (VBool false)).
Proof.
  unfold getEmissionFactor.
  match goal with
  | |- bind ?c _ = cmap _ (bind ?c _) => destruct c as [ef|e]
  end; reflexivity.
Qed.

(** A tag outside [Object.prototype] reads its own factor, or [0.12]. *)
Lemma fuel_term (fuel : string) :
  inherited fuel = false ->
  js_or (literal_get fuelFactors fuel) (VNum 0.12) = VNum (fuel_factor_spec fuel).
Proof.
  unfold inherited. intros H. apply orb_false_elim in H. destruct H as [Hf Hp].
  unfold literal_get, fuel_factor_spec, fuelFactors, assoc.
  destruct (String.eqb fuel "diesel"); [reflexivity|].
  destruct (String.eqb fuel "cng"); [reflexivity|].
  destruct (String.eqb fuel "bev"); [reflexivity|].
  destruct (String.eqb fuel "hvo"); [reflexivity|].
  rewrite Hf, Hp. reflexivity.
Qed.

Lemma fold_fuel_terms (fuels : list string) : forall s,
  forallb (fun f => negb (inherited f)) fuels = true ->
  fold_left
    (fun sum fuel => acc_add sum (js_or (literal_get fuelFactors fuel) (VNum 0.12)))
    fuels (AccNumber s)
  = AccNumber (fold_left PrimFloat.add (map fuel_factor_spec fuels) s).
Proof.
  induction fuels as [|f rest IH]; intros s Hall; [reflexivity|].
  simpl in Hall. apply andb_prop in Hall. destruct Hall as [Hf Hrest].
  apply negb_true_iff in Hf.
  cbn [fold_left map]. rewrite (fuel_term f Hf). cbn [acc_add].
  now apply IH.
Qed.

(** The truck rule on tags outside [Object.prototype]: the mean of the
    per-fuel factors, or the base factor when nothing is selected. *)
Lemma truck_factor (fuelTypes cooled : value) :
  object_coercible fuelTypes = true ->
  truthy cooled = false ->
  forallb (fun f => negb (inherited f)) (selected_fuels fuelTypes) = true ->
  getEmissionFactor (VStr "truck") fuelTypes cooled
  = Return (match selected_fuels fuelTypes with
            | [] => 0.12
            | fuels => mean_spec (map fuel_factor_spec fuels)
            end).
Proof.
  intros Hobj Hcool Hall. unfold getEmissionFactor.
  change (VStr "truck" === "truck") with true. cbv iota.
  assert (Hkeys : Object_keys fuelTypes = Return (map fst (own_entries fuelTypes)))
    by (destruct fuelTypes; try reflexivity; discriminate).
  rewrite Hkeys. cbn [bind]. fold (selected_fuels fuelTypes).
  rewrite Hcool.
  destruct (selected_fuels fuelTypes) as [|f rest] eqn:Hsel; [reflexivity|].
  change (0 <? List.length (f :: rest))%nat with true. cbv iota.
  rewrite (fold_fuel_terms (f :: rest) 0 Hall).
  unfold acc_div, mean_spec. rewrite length_map. reflexivity.
Qed.

(** C2 (the code departs from it).  A selected tag that names a property of
    [Object.prototype] does not contribute [0.12]: [fuelFactors[fuel]] is then
    an inherited function, [sum] turns into a String, and the factor is
    [NaN]. *)
Theorem truck_inherited_tag_gives_NaN :
  getEmissionFactor (VStr "truck") (VObj [("constructor", VBool true)])
    (VBool false) = Return nan
  /\ getEmissionFactor (VStr "truck")
       (VObj [("diesel", VBool true); ("toString", VBool true)])
       (VBool false) = Return nan.
Proof. split; reflexivity. Qed.

(** C3.  For every mode and fuel selection, the factor with cooling is
    [1.3] times the factor without: both calls throw alike, or both return
    and the results are in that ratio. *)
Theorem cooling_multiplies_by_1_3 (mode fuels : value) :
  getEmissionFactor mode fuels (VBool true)
  = cmap (fun ef => 1.3 * ef) (getEmissionFactor mode fuels (VBool false)).
Proof.
  rewrite getEmissionFactor_cooling.
  destruct (getEmissionFactor mode fuels (VBool false)) as [ef|e];
    [|reflexivity].
  cbn [cmap bind truthy]. now rewrite mul_comm.
Qed.

(** C4.  Without cooling, and whatever the fuel selection, the factor is
    [0.04] for ship, [0.5] for plane, [0.03] for train, [0.08] for
    intermodal, and [0.10] for every mode outside the five recognized
    strings. *)
Theorem base_factor_by_mode (fuels cooled : value) :
  truthy cooled = false ->
  getEmissionFactor (VStr "ship") fuels cooled = Return 0.04
  /\ getEmissionFactor (VStr "plane") fuels cooled = Return 0.5
  /\ getEmissionFactor (VStr "train") fuels cooled = Return 0.03
  /\ getEmissionFactor (VStr "intermodal") fuels cooled = Return 0.08
  /\ (forall mode : value,
        mode <> VStr "truck" -> mode <> VStr "ship" -> mode <> VStr "plane" ->
        mode <> VStr "train" -> mode <> VStr "intermodal" ->
        getEmissionFactor mode fuels cooled = Return 0.1).
Proof.
  intros Hcool. unfold getEmissionFactor.
  repeat split; try (cbn; rewrite Hcool; reflexivity).
  intros mode H1 H2 H3 H4 H5.
  rewrite !strict_equals_false by assumption.
  cbn. rewrite Hcool. reflexivity.
Qed.

(** Instance: a ship, and a mode outside the table, with fuels selected. *)
Lemma base_factor_by_mode_witness :
  truthy (VBool false) = false
  /\ getEmissionFactor (VStr "ship")
       (VObj [("diesel", VBool true); ("bev", VBool true)]) (VBool false)
     = Return 0.04
  /\ getEmissionFactor (VStr "bicycle")
       (VObj [("diesel", VBool true); ("bev", VBool true)]) (VBool false)
     = Return 0.1.
Proof.
  split; [reflexivity|].
  destruct (base_factor_by_mode
              (VObj [("diesel", VBool true); ("bev", VBool true)])
              (VBool false) eq_refl) as (Hship & _ & _ & _ & Hother).
  split; [exact Hship|].
  apply Hother; discriminate.
Defined.

End EmissionFacts.

(** ** The handler *)

Section HandlerFacts.

Variable E : Engine.

Local Open Scope float_scope.

Lemma js_or_object_coercible (v : value) :
  object_coercible (js_or v (VObj [])) = true.
Proof.
  unfold js_or. destruct (truthy v) eqn:Ht; [|reflexivity].
  destruct v; try reflexivity; discriminate.
Qed.

(** [getEmissionFactor] returns on every fuel selection that converts to
    an object. *)
Lemma getEmissionFactor_returns (mode fuels cooled : value) :
  object_coercible fuels = true ->
  exists ef, getEmissionFactor mode fuels cooled = Return ef.
Proof.
  intros Hobj. unfold getEmissionFactor.
  assert (Hkeys : Object_keys fuels = Return (map fst (own_entries fuels)))
    by (destruct fuels; try reflexivity; discriminate).
  rewrite Hkeys. cbn [bind].
  repeat match goal with
         | |- context [if ?c then _ else _] => destruct c
         end; cbn [bind]; eexists; reflexivity.
Qed.

(** On Numbers other than zero [parseFloat] is the identity. *)
Lemma parseFloat_number (x : float) :
  truthy (VNum x) = true -> parseFloat E (VNum x) = Return x.
Proof.
  cbn [truthy parseFloat]. destruct (PrimFloat.is_zero x); [discriminate|reflexivity].
Qed.


Lemma Get_number_object_coercible (v : value) (k : string) (x : float) :
  Get v k = VNum x -> object_coercible v = true.
Proof. destruct v; try reflexivity; discriminate. Qed.

(** Unfolding of lines 130-148, when the six conversions return. *)
Lemma computeFootprint_eq
  (quantity tonnesPerUnit transportMode fuelTypes cooledTransport
   originCoords destinationCoords : value)
  (q t lat1 lon1 lat2 lon2 ef : float) :
  parseFloat E quantity = Return q ->
  parseFloat E tonnesPerUnit = Return t ->
  object_coercible originCoords = true ->
  object_coercible destinationCoords = true ->
  ToNumber E (Get originCoords "lat") = Return lat1 ->
  ToNumber E (Get originCoords "lng") = Return lon1 ->
  ToNumber E (Get destinationCoords "lat") = Return lat2 ->
  ToNumber E (Get destinationCoords "lng") = Return lon2 ->
  getEmissionFactor transportMode (js_or fuelTypes (VObj [])) cooledTransport
    = Return ef ->
  computeFootprint E quantity tonnesPerUnit transportMode fuelTypes
    cooledTransport originCoords destinationCoords
  = let totalWeight := q * t in
    let distance := calculateDistance (floatOps E) lat1 lon1 lat2 lon2 in
    let carbonFootprint := totalWeight * distance * ef in
    Return {| totalWeight := totalWeight;
              distance := distance;
              emissionFactor := ef;
              carbonFootprint := carbonFootprint;
              treesNeeded := Math_ceil (carbonFootprint / 21) |}.
Proof.
  intros Hq Ht Ho Hd H1 H2 H3 H4 Hef. unfold computeFootprint, property.
  rewrite Hq, Ht, Ho, Hd. cbn [bind]. rewrite H3, H1, H4, H2. cbn [bind].
  rewrite Hef. reflexivity.
Qed.


(** A branch of the handler that answers with another status than [200]. *)
Ltac other_status := intros [= <- <-]; discriminate.

(** What a success response tells about the run that produced it. *)
Lemma calculate_carbon_200 (w w' : World) (body : value) (r : Response) :
  calculate_carbon E w body = (r, w') ->
  status r = 200%nat ->
  truthy (Get body "quantity") = true
  /\ truthy (Get body "tonnesPerUnit") = true
  /\ exists fp d,
       computeFootprint E (Get body "quantity") (Get body "tonnesPerUnit")
         (Get body "transportMode") (Get body "fuelTypes")
         (Get body "cooledTransport") (Get body "originCoords")
         (Get body "destinationCoords") = Return fp
       /\ data r = Some d
       /\ rd_totalWeight d = totalWeight fp
       /\ rd_distance d = presented E (distance fp) 2
       /\ rd_emissionFactor d = presented E (emissionFactor fp) 4
       /\ rd_carbonFootprint d = presented E (carbonFootprint fp) 2
       /\ rd_treesNeeded d = treesNeeded fp
       /\ exists doc, emissionCalculations w'
                      = emissionCalculations w ++ [(rd_id d, doc)]
                      /\ stored_footprint doc = footprint_of d.
Proof.
  unfold calculate_carbon.
  destruct (negb (object_coercible body)); [other_status|].
  destruct (truthy (Get body "quantity")); cbn [negb orb];
    [|other_status].
  destruct (truthy (Get body "tonnesPerUnit")); cbn [negb orb];
    [|other_status].
  destruct (negb (truthy (Get body "transportMode")) || _ || _);
    [other_status|].
  destruct (negb (truthy (Get body "originCoords")) || _);
    [other_status|].
  destruct (computeFootprint _ _ _ _ _ _ _ _) as [fp|e];
    [|other_status].
  cbn [bind].
  destruct (parseFloat E (Get body "quantity")) as [q|e]; [|other_status].
  destruct (parseFloat E (Get body "tonnesPerUnit")) as [t|e];
    [|other_status].
  cbn [bind]. unfold collection_add.
  destruct (accepts w _); [|other_status].
  intros [= <- <-] _.
  do 2 (split; [reflexivity|]).
  eexists fp, _. split; [reflexivity|]. split; [reflexivity|].
  cbn. repeat (split; [reflexivity|]).
  eexists. split; reflexivity.
Qed.

(** The overflow of the weight, on any engine: the three trigonometric
    calls at [(0, 0)] are fixed by ECMAScript. *)
Lemma same_place_overflow_any_engine :
  computeFootprint E (VNum 1e200) (VNum 1e200) (VStr "train") (VObj [])
    (VBool false)
    (VObj [("lat", VNum 0); ("lng", VNum 0)])
    (VObj [("lat", VNum 0); ("lng", VNum 0)])
  = Return {| totalWeight := infinity; distance := 0; emissionFactor := 0.03;
              carbonFootprint := nan; treesNeeded := nan |}.
Proof. vm_compute. reflexivity. Qed.

End HandlerFacts.

(** C1.  For a request whose quantity and tonnes-per-unit are non-zero
    Numbers and whose four coordinates are Numbers, the pipeline computes:
    the total weight [quantity * tonnesPerUnit]; the distance by
    [calculateDistance] on the coordinates and the factor by
    [getEmissionFactor] on mode, fuels and cooling; the carbon footprint
    [totalWeight * distance * emissionFactor]; and [treesNeeded], which is
    the ceiling of that unrounded footprint over [21]: the integer not
    below the quotient and less than one above it.  A success response
    sends this [treesNeeded] next to the two-decimal presentation of the
    footprint. *)
Theorem footprint_pipeline (E : Engine) (body : value)
  (q t lat1 lon1 lat2 lon2 : float) :
  Get body "quantity" = VNum q ->
  Get body "tonnesPerUnit" = VNum t ->
  truthy (VNum q) = true ->
  truthy (VNum t) = true ->
  Get (Get body "originCoords") "lat" = VNum lat1 ->
  Get (Get body "originCoords") "lng" = VNum lon1 ->
  Get (Get body "destinationCoords") "lat" = VNum lat2 ->
  Get (Get body "destinationCoords") "lng" = VNum lon2 ->
  exists fp,
    computeFootprint E (Get body "quantity") (Get body "tonnesPerUnit")
      (Get body "transportMode") (Get body "fuelTypes")
      (Get body "cooledTransport") (Get body "originCoords")
      (Get body "destinationCoords") = Return fp
    /\ totalWeight fp = (q * t)%float
    /\ distance fp = calculateDistance (floatOps E) lat1 lon1 lat2 lon2
    /\ getEmissionFactor (Get body "transportMode")
         (js_or (Get body "fuelTypes") (VObj [])) (Get body "cooledTransport")
       = Return (emissionFactor fp)
    /\ carbonFootprint fp
       = (totalWeight fp * distance fp * emissionFactor fp)%float
    /\ is_ceiling (carbonFootprint fp / 21)%float (treesNeeded fp)
    /\ forall (w w' : World) (r : Response),
         calculate_carbon E w body = (r, w') ->
         status r = 200%nat ->
         exists d,
           data r = Some d
           /\ rd_totalWeight d = totalWeight fp
           /\ rd_treesNeeded d = treesNeeded fp
           /\ rd_carbonFootprint d = presented E (carbonFootprint fp) 2.
Proof.
  intros Hq Ht Tq Tt H1 H2 H3 H4.
  destruct (getEmissionFactor_returns (Get body "transportMode")
              (js_or (Get body "fuelTypes") (VObj []))
              (Get body "cooledTransport")
              (js_or_object_coercible _)) as [ef Hef].
  assert (Hfp :
    computeFootprint E (Get body "quantity") (Get body "tonnesPerUnit")
      (Get body "transportMode") (Get body "fuelTypes")
      (Get body "cooledTransport") (Get body "originCoords")
      (Get body "destinationCoords")
    = Return {| totalWeight := q * t;
                distance := calculateDistance (floatOps E) lat1 lon1 lat2 lon2;
                emissionFactor := ef;
                carbonFootprint :=
                  q * t * calculateDistance (floatOps E) lat1 lon1 lat2 lon2
                  * ef;
                treesNeeded :=
                  Math_ceil
                    (q * t * calculateDistance (floatOps E) lat1 lon1 lat2 lon2
                     * ef / 21) |}%float).
  { apply (computeFootprint_eq E _ _ _ _ _ _ _ q t lat1 lon1 lat2 lon2 ef).
    - rewrite Hq. now apply parseFloat_number.
    - rewrite Ht. now apply parseFloat_number.
    - exact (Get_number_object_coercible _ _ _ H1).
    - exact (Get_number_object_coercible _ _ _ H3).
    - now rewrite H1.
    - now rewrite H2.
    - now rewrite H3.
    - now rewrite H4.
    - exact Hef. }
  eexists. split; [exact Hfp|].
  cbn [totalWeight distance emissionFactor carbonFootprint treesNeeded].
  split; [reflexivity|]. split; [reflexivity|]. split; [exact Hef|].
  split; [reflexivity|]. split; [apply Math_ceil_is_ceiling|].
  intros w w' r Hrun H200.
  destruct (calculate_carbon_200 E w w' body r Hrun H200)
    as (_ & _ & fp' & d & Hfp' & Hd & Hw & _ & _ & Hc & Htrees & _).
  rewrite Hfp in Hfp'. injection Hfp' as <-.
  exists d. repeat split; assumption.
Qed.

(** Instance: ten pallets of 1.5 tonnes from Paris to New York, by a
    cooled truck on diesel and battery; the footprint over [21] lies
    between 433 and 434, and 434 trees are needed. *)
Lemma footprint_pipeline_witness :
  Get (Sample.request (VNum 10) Sample.paris Sample.new_york) "quantity" = VNum 10
  /\ truthy (VNum 10) = true
  /\ exists fp,
       computeFootprint Sample.engine (VNum 10) (VNum 1.5) (VStr "truck")
         (VObj [("diesel", VBool true); ("bev", VBool true)]) (VBool true)
         Sample.paris Sample.new_york = Return fp
       /\ totalWeight fp = (10 * 1.5)%float
       /\ carbonFootprint fp
          = (totalWeight fp * distance fp * emissionFactor fp)%float
       /\ is_ceiling (carbonFootprint fp / 21)%float (treesNeeded fp)
       /\ treesNeeded fp = 434%float.
Proof.
  split; [reflexivity|]. split; [reflexivity|].
  destruct (footprint_pipeline Sample.engine
              (Sample.request (VNum 10) Sample.paris Sample.new_york)
              10%float 1.5%float
              48.8566%float 2.3522%float 40.7128%float (-74.006)%float
              eq_refl eq_refl eq_refl eq_refl
              eq_refl eq_refl eq_refl eq_refl)
    as (fp & Hfp & Hw & _ & _ & Hc & Ht & _).
  exists fp. repeat split; try assumption.
  cbn [Get own_entries assoc Sample.request String.eqb Ascii.eqb Bool.eqb]
    in Hfp.
  assert (Hrun :
    computeFootprint Sample.engine (VNum 10) (VNum 1.5) (VStr "truck")
      (VObj [("diesel", VBool true); ("bev", VBool true)]) (VBool true)
      Sample.paris Sample.new_york
    = Return {| totalWeight := 15; distance := 5837.2409038258393;
                emissionFactor := 0.10400000000000001;
                carbonFootprint := 9106.0958099683103;
                treesNeeded := 434 |}%float)
    by (vm_compute; reflexivity).
  change (computeFootprint Sample.engine (VNum 10) (VNum 1.5) (VStr "truck")
            (VObj [("diesel", VBool true); ("bev", VBool true)]) (VBool true)
            Sample.paris Sample.new_york = Return fp) in Hfp.
  rewrite Hrun in Hfp. injection Hfp as <-. reflexivity.
Defined.

(** C7, as the code has it.  When origin and destination hold the same
    finite coordinates, the cosine of the latitude is a number in [[-1, 1]],
    [quantity] and [tonnesPerUnit] parse to Numbers whose product is finite
    and the emission factor is finite,
    the distance is [+0], and the carbon footprint and the trees needed are
    zeros. *)
Theorem same_place_zero_footprint (E : Engine)
  (quantity tonnesPerUnit transportMode fuelTypes cooledTransport
   originCoords destinationCoords : value) (lat lng q t ef : float) :
  Get originCoords "lat" = VNum lat -> Get originCoords "lng" = VNum lng ->
  Get destinationCoords "lat" = VNum lat ->
  Get destinationCoords "lng" = VNum lng ->
  PrimFloat.is_finite lat = true -> PrimFloat.is_finite lng = true ->
  (abs (Math_cos E (lat * Math_PI / 180)) <=? 1)%float = true ->
  parseFloat E quantity = Return q ->
  parseFloat E tonnesPerUnit = Return t ->
  PrimFloat.is_finite (q * t) = true ->
  getEmissionFactor transportMode (js_or fuelTypes (VObj [])) cooledTransport
    = Return ef ->
  PrimFloat.is_finite ef = true ->
  exists fp,
    computeFootprint E quantity tonnesPerUnit transportMode fuelTypes
      cooledTransport originCoords destinationCoords = Return fp
    /\ distance fp = 0%float
    /\ PrimFloat.is_zero (carbonFootprint fp) = true
    /\ PrimFloat.is_zero (treesNeeded fp) = true.
Proof.
  intros Holat Holng Hdlat Hdlng Flat Flng Hcos Hq Ht Fw Hef Fef.
  rewrite (computeFootprint_eq E _ _ _ _ _ _ _ q t lat lng lat lng ef Hq Ht
             (Get_number_object_coercible _ _ _ Holat)
             (Get_number_object_coercible _ _ _ Hdlat)
             ltac:(now rewrite Holat) ltac:(now rewrite Holng)
             ltac:(now rewrite Hdlat) ltac:(now rewrite Hdlng) Hef).
  cbv zeta.
  rewrite (calculateDistance_same_point E lat lng Flat Flng Hcos).
  eexists. split; [reflexivity|].
  cbn [distance carbonFootprint treesNeeded].
  assert (Hc : PrimFloat.is_zero (q * t * 0 * ef)%float = true).
  { apply mul_zero_l; [|assumption]. apply mul_zero_r; [assumption|reflexivity]. }
  split; [reflexivity|]. split; [exact Hc|].
  rewrite Math_ceil_zero; apply div_zero_l; try assumption; reflexivity.
Qed.

(** Instance: the example of the specification, from Paris to Paris. *)
Lemma same_place_zero_footprint_witness :
  PrimFloat.is_finite 48.8566%float = true
  /\ (abs (Math_cos Sample.engine (48.8566 * Math_PI / 180)) <=? 1)%float = true
  /\ parseFloat Sample.engine (VNum 10) = Return 10%float
  /\ PrimFloat.is_finite (10 * 1)%float = true
  /\ exists fp,
       computeFootprint Sample.engine (VNum 10) (VNum 1) (VStr "train")
         (VObj []) (VBool false) Sample.paris Sample.paris = Return fp
       /\ distance fp = 0%float
       /\ PrimFloat.is_zero (carbonFootprint fp) = true
       /\ PrimFloat.is_zero (treesNeeded fp) = true.
Proof.
  split; [reflexivity|]. split; [vm_compute; reflexivity|].
  split; [reflexivity|]. split; [reflexivity|].
  exact (same_place_zero_footprint Sample.engine (VNum 10) (VNum 1)
           (VStr "train") (VObj []) (VBool false) Sample.paris Sample.paris
           48.8566%float 2.3522%float 10%float 1%float 0.03%float
           eq_refl eq_refl eq_refl eq_refl eq_refl eq_refl
           ltac:(vm_compute; reflexivity) eq_refl eq_refl eq_refl eq_refl
           eq_refl).
Defined.

(** C7 fails as stated: with [quantity = tonnesPerUnit = 1e200] the weight
    overflows to [Infinity], [Infinity * 0] is [NaN], and neither the carbon
    footprint nor the trees needed is [0], although origin and destination
    coincide and the distance is [0]. *)
Lemma same_place_overflow :
  exists fp,
    computeFootprint Sample.engine (VNum 1e200) (VNum 1e200) (VStr "train")
      (VObj []) (VBool false)
      (VObj [("lat", VNum 0); ("lng", VNum 0)])
      (VObj [("lat", VNum 0); ("lng", VNum 0)]) = Return fp
    /\ distance fp = 0%float
    /\ PrimFloat.is_nan (carbonFootprint fp) = true
    /\ PrimFloat.is_zero (carbonFootprint fp) = false
    /\ PrimFloat.is_zero (treesNeeded fp) = false.
Proof.
  eexists. split; [apply same_place_overflow_any_engine|].
  repeat split.
Qed.

(** C9.  The footprint is a function of the request alone: two runs of
    the handler on the same body, from any two states of the store and
    clock, that both succeed send the same total weight, distance, emission
    factor, carbon footprint and trees needed, and store them alike; the
    two responses can differ in the document id only. *)
Theorem footprint_independent_of_world (E : Engine)
  (w1 w2 w1' w2' : World) (body : value) (r1 r2 : Response) :
  calculate_carbon E w1 body = (r1, w1') ->
  calculate_carbon E w2 body = (r2, w2') ->
  status r1 = 200%nat -> status r2 = 200%nat ->
  exists d1 d2 doc1 doc2,
    data r1 = Some d1 /\ data r2 = Some d2
    /\ footprint_of d1 = footprint_of d2
    /\ emissionCalculations w1' = emissionCalculations w1 ++ [(rd_id d1, doc1)]
    /\ emissionCalculations w2' = emissionCalculations w2 ++ [(rd_id d2, doc2)]
    /\ stored_footprint doc1 = stored_footprint doc2.
Proof.
  intros Hrun1 Hrun2 H1 H2.
  destruct (calculate_carbon_200 E w1 w1' body r1 Hrun1 H1)
    as (_ & _ & fp1 & d1 & Hfp1 & Hd1 & Ha1 & Hb1 & Hc1 & He1 & Hf1
        & doc1 & Hw1 & Hs1).
  destruct (calculate_carbon_200 E w2 w2' body r2 Hrun2 H2)
    as (_ & _ & fp2 & d2 & Hfp2 & Hd2 & Ha2 & Hb2 & Hc2 & He2 & Hf2
        & doc2 & Hw2 & Hs2).
  rewrite Hfp1 in Hfp2. injection Hfp2 as <-.
  assert (Hsame : footprint_of d1 = footprint_of d2).
  { unfold footprint_of.
    now rewrite Ha1, Hb1, Hc1, He1, Hf1, Ha2, Hb2, Hc2, He2, Hf2. }
  exists d1, d2, doc1, doc2.
  repeat split; try assumption.
  now rewrite Hs1, Hs2.
Qed.

(** Instance: the same request against the empty store and against the
    later one. *)
Lemma footprint_independent_of_world_witness :
  status (fst (calculate_carbon Sample.engine Sample.world
                 (Sample.request (VNum 10) Sample.paris Sample.new_york)))
  = 200%nat
  /\ status (fst (calculate_carbon Sample.engine Sample.later_world
                    (Sample.request (VNum 10) Sample.paris Sample.new_york)))
     = 200%nat
  /\ exists d1 d2,
       data (fst (calculate_carbon Sample.engine Sample.world
                    (Sample.request (VNum 10) Sample.paris Sample.new_york)))
       = Some d1
       /\ data (fst (calculate_carbon Sample.engine Sample.later_world
                       (Sample.request (VNum 10) Sample.paris Sample.new_york)))
          = Some d2
       /\ footprint_of d1 = footprint_of d2.
Proof.
  split; [vm_compute; reflexivity|]. split; [vm_compute; reflexivity|].
  destruct (footprint_independent_of_world Sample.engine
              Sample.world Sample.later_world _ _
              (Sample.request (VNum 10) Sample.paris Sample.new_york) _ _
              (surjective_pairing _) (surjective_pairing _)
              ltac:(vm_compute; reflexivity) ltac:(vm_compute; reflexivity))
    as (d1 & d2 & _ & _ & Hd1 & Hd2 & Hsame & _).
  exists d1, d2. repeat split; assumption.
Defined.

(** C10, as the code has it.  A request whose body is an object and whose
    [quantity], [tonnesPerUnit], [transportMode],
    [origin] or [destination] is absent or falsy (a [quantity] of [0]
    included) is answered [400] with ['Missing required fields']; one whose
    [originCoords] or [destinationCoords] is absent or falsy is answered
    [400] too; in each case the response carries no computed data and the
    store is left as it was. *)
Theorem validation_rejects (E : Engine) (w : World) (body : value) :
  object_coercible body = true ->
  (truthy (Get body "quantity") = false
   \/ truthy (Get body "tonnesPerUnit") = false
   \/ truthy (Get body "transportMode") = false
   \/ truthy (Get body "origin") = false
   \/ truthy (Get body "destination") = false ->
   calculate_carbon E w body = (respond_400 "Missing required fields", w))
  /\ (Get body "quantity" = VNum 0 ->
      calculate_carbon E w body = (respond_400 "Missing required fields", w))
  /\ (truthy (Get body "originCoords") = false
      \/ truthy (Get body "destinationCoords") = false ->
      status (fst (calculate_carbon E w body)) = 400%nat
      /\ data (fst (calculate_carbon E w body)) = None
      /\ snd (calculate_carbon E w body) = w).
Proof.
  intros Hbody.
  assert (Hfirst :
    truthy (Get body "quantity") = false
    \/ truthy (Get body "tonnesPerUnit") = false
    \/ truthy (Get body "transportMode") = false
    \/ truthy (Get body "origin") = false
    \/ truthy (Get body "destination") = false ->
    calculate_carbon E w body = (respond_400 "Missing required fields", w)).
  { intros Hmissing. unfold calculate_carbon. rewrite Hbody. cbn [negb].
    assert (Hcond : negb (truthy (Get body "quantity"))
                    || negb (truthy (Get body "tonnesPerUnit"))
                    || negb (truthy (Get body "transportMode"))
                    || negb (truthy (Get body "origin"))
                    || negb (truthy (Get body "destination")) = true).
    { destruct Hmissing as [H|[H|[H|[H|H]]]]; rewrite H; cbn [negb];
        rewrite ?orb_true_r; reflexivity. }
    rewrite Hcond. reflexivity. }
  split; [exact Hfirst|]. split.
  - intros Hq. apply Hfirst. left. rewrite Hq. reflexivity.
  - intros Hcoords. unfold calculate_carbon. rewrite Hbody. cbn [negb].
    destruct (negb (truthy (Get body "quantity")) || _ || _ || _ || _);
      [repeat split|].
    assert (Hcond : negb (truthy (Get body "originCoords"))
                    || negb (truthy (Get body "destinationCoords")) = true).
    { destruct Hcoords as [H|H]; rewrite H; cbn [negb];
        rewrite ?orb_true_r; reflexivity. }
    rewrite Hcond. repeat split.
Qed.

(** Instance: a quantity of [0], and a request without [originCoords]. *)
Lemma validation_rejects_witness :
  object_coercible (Sample.request (VNum 0) Sample.paris Sample.new_york) = true
  /\ calculate_carbon Sample.engine Sample.world
       (Sample.request (VNum 0) Sample.paris Sample.new_york)
     = (respond_400 "Missing required fields", Sample.world)
  /\ status (fst (calculate_carbon Sample.engine Sample.world
                    (Sample.request (VNum 10) VUndefined Sample.new_york)))
     = 400%nat.
Proof.
  split; [reflexivity|].
  destruct (validation_rejects Sample.engine Sample.world
              (Sample.request (VNum 0) Sample.paris Sample.new_york) eq_refl)
    as (_ & Hzero & _).
  destruct (validation_rejects Sample.engine Sample.world
              (Sample.request (VNum 10) VUndefined Sample.new_york) eq_refl)
    as (_ & _ & Hcoords).
  split; [exact (Hzero eq_refl)|].
  exact (proj1 (Hcoords (or_introl eq_refl))).
Defined.

(** Without a body there is nothing to destructure: the handler throws
    before it validates, on any engine and store. *)
Lemma calculate_carbon_no_body (E : Engine) (w : World) :
  calculate_carbon E w VUndefined
  = (respond_500 "TypeError: Cannot destructure req.body", w).
Proof. reflexivity. Qed.

(** A quantity, or a coordinate, with an own [toString] passes the
    validation and makes the conversion throw: the answer is [500]. *)
Example own_toString_throws :
  status (fst (calculate_carbon Sample.engine Sample.world
                 (Sample.request (VObj [("toString", VNum 1)])
                    Sample.paris Sample.new_york))) = 500%nat
  /\ status (fst (calculate_carbon Sample.engine Sample.world
                    (Sample.request (VNum 10)
                       (VObj [("lat", VObj [("toString", VNum 1)]);
                              ("lng", VNum 2.3522)])
                       Sample.new_york))) = 500%nat
  /\ ToNumber Sample.engine (VArr [VNum 1; VObj [("toString", VNull)]])
     = Throw "TypeError: Cannot convert object to primitive value"
  /\ ToNumber Sample.engine (VObj [("valueOf", VNum 1)]) = Return nan.
Proof. repeat split. Qed.

(** C10 fails as stated: when [req.body] is [undefined] every required
    field is absent, and the answer is [500], not [400]. *)
Lemma validation_skipped_without_body :
  Get VUndefined "quantity" = VUndefined
  /\ Get VUndefined "originCoords" = VUndefined
  /\ status (fst (calculate_carbon Sample.engine Sample.world VUndefined))
     = 500%nat
  /\ status (fst (calculate_carbon Sample.engine Sample.world VUndefined))
     <> 400%nat.
Proof.
  rewrite calculate_carbon_no_body. repeat split. discriminate.
Qed.

(** ** The examples of the specification (section 8), evaluated *)

Section SpecExamples.

Local Open Scope float_scope.

Example ship_factor :
  getEmissionFactor (VStr "ship") (VObj []) (VBool false) = Return 0.04.
Proof. reflexivity. Qed.

Example plane_cooled_factor :
  getEmissionFactor (VStr "plane") (VObj []) (VBool true) = Return (0.5 * 1.3)
  /\ 0.5 * 1.3 = 0.65.
Proof. split; reflexivity. Qed.

Example truck_diesel_bev_factor :
  getEmissionFactor (VStr "truck")
    (VObj [("diesel", VBool true); ("bev", VBool true)]) (VBool false)
  = Return ((0.12 + 0.04) / 2)
  /\ (0.12 + 0.04) / 2 = 0.08.
Proof. split; reflexivity. Qed.

Example truck_no_fuel_factor :
  getEmissionFactor (VStr "truck") (VObj []) (VBool false) = Return 0.12
  /\ getEmissionFactor (VStr "truck")
       (VObj [("diesel", VBool false); ("cng", VNum 0)]) (VBool false)
     = Return 0.12.
Proof. split; reflexivity. Qed.

Example unknown_mode_factor :
  getEmissionFactor (VStr "unknown-mode") (VObj []) (VBool false) = Return 0.10.
Proof. reflexivity. Qed.

Example truck_unlisted_tag_factor :
  getEmissionFactor (VStr "truck")
    (VObj [("hydrogen", VBool true); ("bev", VBool true)]) (VBool false)
  = Return ((0.12 + 0.04) / 2).
Proof. reflexivity. Qed.

(** The truck rule at work on two listed tags and one outside the table. *)
Example truck_cng_hvo_other_factor :
  getEmissionFactor (VStr "truck")
    (VObj [("cng", VBool true); ("hvo", VNum 1); ("lng", VStr "yes");
           ("diesel", VBool false)])
    (VBool false)
  = Return (mean_spec [0.10; 0.08; 0.12]).
Proof. apply truck_factor; reflexivity. Qed.

Example trees_for_21_kg : Math_ceil (21.0 / 21) = 1 /\ Math_ceil (21.01 / 21) = 2.
Proof. split; reflexivity. Qed.

(** The ceiling of the unrounded footprint and the ceiling of its
    two-decimal presentation differ, for instance at [21.004] kg. *)
Example trees_of_unrounded_footprint :
  Math_ceil (21.004 / 21) = 2
  /\ presented Sample.engine 21.004 2 = 21
  /\ Math_ceil (presented Sample.engine 21.004 2 / 21) = 1.
Proof. repeat split; vm_compute; reflexivity. Qed.

(** The example of the specification for origin = destination. *)
Example same_place_train :
  computeFootprint Sample.engine (VNum 10) (VNum 1) (VStr "train") (VObj [])
    (VBool false) Sample.paris Sample.paris
  = Return {| totalWeight := 10; distance := 0; emissionFactor := 0.03;
              carbonFootprint := 0; treesNeeded := 0 |}.
Proof. vm_compute. reflexivity. Qed.

(** The quarter great circle on the sample engine. *)
Example quarter_circle_sample :
  presented Sample.engine
    (calculateDistance (floatOps Sample.engine) 0 0 0 90) 1 = 10007.5.
Proof. vm_compute. reflexivity. Qed.

(** A request whose fuel selection names an inherited property is answered
    with success and a footprint that is not a number. *)
Example inherited_tag_request :
  option_map footprint_of
    (data (fst (calculate_carbon Sample.engine Sample.world
                  (VObj [ ("quantity", VNum 10); ("unit", VStr "pallet");
                          ("tonnesPerUnit", VNum 1.5);
                          ("transportMode", VStr "truck");
                          ("fuelTypes", VObj [("constructor", VBool true)]);
                          ("origin", VStr "Paris");
                          ("destination", VStr "New York");
                          ("originCoords", Sample.paris);
                          ("destinationCoords", Sample.new_york) ]))))
  = Some (15, 5837.24, nan, nan, nan).
Proof. vm_compute. reflexivity. Qed.

(** Without [originCoords] the computation would throw on [.lat]; the
    handler answers [400] before reaching it. *)
Example coordinates_checked_before_use :
  computeFootprint Sample.engine (VNum 10) (VNum 1.5) (VStr "truck") (VObj [])
    (VBool false) VUndefined Sample.new_york
  = Throw "TypeError: Cannot read properties of undefined or null"
  /\ fst (calculate_carbon Sample.engine Sample.world
            (Sample.request (VNum 10) VUndefined Sample.new_york))
     = respond_400 "Origin and destination coordinates are required".
Proof. split; reflexivity. Qed.

End SpecExamples.

(** * Further properties of the server *)

(** ** What [POST /api/calculate-carbon] does to the store *)

Section PostFacts.

Variable E : Engine.

Local Open Scope float_scope.



(** A success: what was checked, what was written, and where. *)
Lemma calculate_carbon_success (w w' : World) (body : value) (r : Response) :
  calculate_carbon E w body = (r, w') ->
  status r = 200%nat ->
  exists d doc,
    r = respond_200 d
    /\ accepts w doc = true
    /\ rd_id d = auto_id w (List.length (emissionCalculations w))
    /\ w' = {| emissionCalculations := emissionCalculations w ++ [(rd_id d, doc)];
               accepts := accepts w; auto_id := auto_id w; now := now w |}
    /\ cd_userId doc = js_or (Get body "userId") (VStr "anonymous")
    /\ cd_transportMode doc = Get body "transportMode"
    /\ truthy (Get body "transportMode") = true
    /\ rd_transportMode d = Get body "transportMode"
    /\ rd_cooledTransport d = js_or (Get body "cooledTransport") (VBool false)
    /\ cd_createdAt doc = now w
    /\ stored_footprint doc = footprint_of d.
Proof.
  unfold calculate_carbon.
  destruct (negb (object_coercible body)); [intros [= <- <-]; discriminate|].
  destruct (truthy (Get body "quantity")); cbn [negb orb];
    [|intros [= <- <-]; discriminate].
  destruct (truthy (Get body "tonnesPerUnit")); cbn [negb orb];
    [|intros [= <- <-]; discriminate].
  destruct (truthy (Get body "transportMode")); cbn [negb orb];
    [|intros [= <- <-]; discriminate].
  destruct (negb (truthy (Get body "origin")) || _);
    [intros [= <- <-]; discriminate|].
  destruct (negb (truthy (Get body "originCoords")) || _);
    [intros [= <- <-]; discriminate|].
  destruct (computeFootprint _ _ _ _ _ _ _ _) as [fp|e];
    [|intros [= <- <-]; discriminate].
  cbn [bind].
  destruct (parseFloat E (Get body "quantity")) as [q|e];
    [|intros [= <- <-]; discriminate].
  destruct (parseFloat E (Get body "tonnesPerUnit")) as [t|e];
    [|intros [= <- <-]; discriminate].
  cbn [bind]. unfold collection_add.
  match goal with
  | |- context [accepts w ?doc] => destruct (accepts w doc) eqn:Hacc
  end; [|intros [= <- <-]; discriminate].
  intros [= <- <-] _.
  eexists _, _. split; [reflexivity|]. split; [exact Hacc|].
  repeat split.
Qed.

(** Every other answer leaves the world as it was. *)
Lemma calculate_carbon_failure (w w' : World) (body : value) (r : Response) :
  calculate_carbon E w body = (r, w') ->
  status r <> 200%nat ->
  w' = w /\ data r = None /\ success r = false
  /\ (status r = 400%nat \/ status r = 500%nat).
Proof.
  unfold calculate_carbon.
  destruct (negb (object_coercible body)); [intros [= <- <-]; cbn; auto|].
  destruct (_ || _ || _ || _ || _); [intros [= <- <-]; cbn; auto|].
  destruct (_ || _); [intros [= <- <-]; cbn; auto|].
  destruct (computeFootprint _ _ _ _ _ _ _ _) as [fp|e];
    [|intros [= <- <-]; cbn; auto].
  cbn [bind].
  destruct (parseFloat E (Get body "quantity")) as [q|e];
    [|intros [= <- <-]; cbn; auto].
  destruct (parseFloat E (Get body "tonnesPerUnit")) as [t|e];
    [|intros [= <- <-]; cbn; auto].
  cbn [bind]. unfold collection_add.
  destruct (accepts w _); intros [= <- <-]; cbn; [congruence|auto].
Qed.

End PostFacts.

(** ** Lookup in the collection *)

Section StoreFacts.

(** The world after a document was appended. *)
Lemma find_calculation_appended (w w' : World) (id id' : string)
  (doc : CalculationData) :
  emissionCalculations w' = emissionCalculations w ++ [(id, doc)] ->
  find_calculation w' id'
  = match find_calculation w id' with
    | Some d => Some d
    | None => if String.eqb id id' then Some doc else None
    end.
Proof.
  unfold find_calculation. intros ->.
  induction (emissionCalculations w) as [|[k d] rest IH]; cbn.
  - destruct (String.eqb id id'); reflexivity.
  - destruct (String.eqb k id'); [reflexivity|exact IH].
Qed.

(** The world after the documents at [id] were removed. *)
Lemma find_calculation_removed (w : World) (id id' : string) :
  find_calculation (without_calculation w id) id'
  = if String.eqb id' id then None else find_calculation w id'.
Proof.
  unfold find_calculation, without_calculation. cbn.
  induction (emissionCalculations w) as [|[k d] rest IH]; cbn.
  - destruct (String.eqb id' id); reflexivity.
  - destruct (String.eqb_spec k id) as [->|Hk]; cbn.
    + rewrite IH. destruct (String.eqb_spec id' id) as [->|Hne]; [reflexivity|].
      destruct (String.eqb_spec id id') as [Heq|_]; [congruence|reflexivity].
    + destruct (String.eqb_spec k id') as [->|Hk'].
      * destruct (String.eqb_spec id' id) as [Heq|_]; [congruence|reflexivity].
      * exact IH.
Qed.

Lemma find_calculation_in (w : World) (id : string) (d : CalculationData) :
  find_calculation w id = Some d -> In (id, d) (emissionCalculations w).
Proof.
  unfold find_calculation.
  destruct (find _ _) as [[k d']|] eqn:Hfind; [|discriminate].
  intros [= <-]. apply find_some in Hfind. destruct Hfind as [Hin Heq].
  cbn in Heq. apply String.eqb_eq in Heq. now subst k.
Qed.

End StoreFacts.

(** ** The routes together *)

(** X1.  [POST /api/calculate-carbon] answers [200], [400] or [500].  On
    [200] exactly one document is appended to the collection, under the id
    the response carries, and it holds the footprint the response carries;
    on [400] and [500] the world is left as it was and no data is sent. *)
Theorem post_store_effect (E : Engine) (w : World) (body : value) :
  (status (fst (calculate_carbon E w body)) = 200%nat
   /\ exists d doc,
        data (fst (calculate_carbon E w body)) = Some d
        /\ rd_id d = auto_id w (List.length (emissionCalculations w))
        /\ emissionCalculations (snd (calculate_carbon E w body))
           = emissionCalculations w ++ [(rd_id d, doc)]
        /\ accepts w doc = true
        /\ stored_footprint doc = footprint_of d)
  \/ ((status (fst (calculate_carbon E w body)) = 400%nat
       \/ status (fst (calculate_carbon E w body)) = 500%nat)
      /\ snd (calculate_carbon E w body) = w
      /\ data (fst (calculate_carbon E w body)) = None).
Proof.
  destruct (calculate_carbon E w body) as [r w'] eqn:Hrun. cbn [fst snd].
  destruct (Nat.eq_dec (status r) 200) as [H200|Hother].
  - left. split; [exact H200|].
    destruct (calculate_carbon_success E w w' body r Hrun H200)
      as (d & doc & -> & Hacc & Hid & -> & _ & _ & _ & _ & _ & _ & Hfoot).
    exists d, doc. repeat split; assumption.
  - right.
    destruct (calculate_carbon_failure E w w' body r Hrun Hother)
      as (-> & Hdata & _ & Hcode).
    repeat split; assumption.
Qed.



(** What a successful [POST] leaves in the store, by lookup. *)
Lemma posted_document (E : Engine) (w : World) (body : value) :
  status (fst (calculate_carbon E w body)) = 200%nat ->
  find_calculation w (auto_id w (List.length (emissionCalculations w))) = None ->
  exists d doc,
    data (fst (calculate_carbon E w body)) = Some d
    /\ rd_id d = auto_id w (List.length (emissionCalculations w))
    /\ find_calculation (snd (calculate_carbon E w body)) (rd_id d) = Some doc
    /\ cd_userId doc = js_or (Get body "userId") (VStr "anonymous")
    /\ cd_transportMode doc = Get body "transportMode"
    /\ cd_createdAt doc = now w
    /\ stored_footprint doc = footprint_of d.
Proof.
  intros H200 Hfresh.
  destruct (calculate_carbon E w body) as [r w'] eqn:Hrun. cbn [fst snd] in *.
  destruct (calculate_carbon_success E w w' body r Hrun H200)
    as (d & doc & -> & _ & Hid & -> & Hu & Hm & _ & _ & _ & Hc & Hf).
  exists d, doc. split; [reflexivity|]. split; [exact Hid|].
  split; [|repeat split; assumption].
  match goal with
  | |- find_calculation ?w' _ = _ =>
      rewrite (find_calculation_appended w w' (rd_id d) (rd_id d) doc eq_refl)
  end.
  rewrite Hid, Hfresh, String.eqb_refl. reflexivity.
Qed.

(** X3.  Round trip: once [POST /api/calculate-carbon] has answered [200]
    with a fresh id, [GET /api/calculation/:id] for the id of the response
    answers [200] with that id and a document that holds the footprint of
    the response, the owner [userId || 'anonymous'] and the transport mode
    of the request. *)
Theorem post_then_get (E : Engine) (av : Availability) (w : World)
  (body : value) :
  reads av = true ->
  status (fst (calculate_carbon E w body)) = 200%nat ->
  find_calculation w (auto_id w (List.length (emissionCalculations w))) = None ->
  exists d doc,
    data (fst (calculate_carbon E w body)) = Some d
    /\ get_calculation av (snd (calculate_carbon E w body)) (rd_id d)
       = {| reply_status := 200; reply_success := true;
            reply_message := None; reply_data := Some (rd_id d, doc);
            reply_error := None |}
    /\ stored_footprint doc = footprint_of d
    /\ cd_userId doc = js_or (Get body "userId") (VStr "anonymous")
    /\ cd_transportMode doc = Get body "transportMode".
Proof.
  intros Hav H200 Hfresh.
  destruct (posted_document E w body H200 Hfresh)
    as (d & doc & Hd & _ & Hfind & Hu & Hm & _ & Hf).
  exists d, doc. split; [exact Hd|]. split; [|auto].
  unfold get_calculation, doc_get. rewrite Hav, Hfind. reflexivity.
Qed.

Lemma post_then_get_witness :
  exists d doc,
    data (fst Scenario.posted) = Some d
    /\ get_calculation Scenario.online (snd Scenario.posted) (rd_id d)
       = {| reply_status := 200; reply_success := true;
            reply_message := None; reply_data := Some (rd_id d, doc);
            reply_error := None |}
    /\ stored_footprint doc = footprint_of d
    /\ cd_userId doc = js_or (Get (Sample.request (VNum 10) Sample.paris
                                     Sample.new_york) "userId")
                             (VStr "anonymous")
    /\ cd_transportMode doc
       = Get (Sample.request (VNum 10) Sample.paris Sample.new_york)
           "transportMode".
Proof.
  exact (post_then_get Sample.engine Scenario.online Sample.world
           (Sample.request (VNum 10) Sample.paris Sample.new_york)
           eq_refl eq_refl eq_refl).
Defined.

(** X4.  [POST /api/calculate-carbon] never changes what is stored under
    another id: whatever it answers, every document that was there before,
    and every id other than the new one, reads the same afterwards. *)
Theorem post_keeps_other_documents (E : Engine) (av : Availability)
  (w : World) (body : value) (id : string) :
  find_calculation w id <> None
  \/ id <> auto_id w (List.length (emissionCalculations w)) ->
  get_calculation av (snd (calculate_carbon E w body)) id
  = get_calculation av w id.
Proof.
  intros Hid.
  destruct (calculate_carbon E w body) as [r w'] eqn:Hrun. cbn [snd].
  destruct (Nat.eq_dec (status r) 200) as [H200|Hother].
  - destruct (calculate_carbon_success E w w' body r Hrun H200)
      as (d & doc & _ & _ & Hnew & -> & _).
    unfold get_calculation, doc_get.
    match goal with
    | |- context [find_calculation ?w' id] =>
        rewrite (find_calculation_appended w w' (rd_id d) id doc eq_refl)
    end.
    destruct (find_calculation w id) as [old|] eqn:Hold; [reflexivity|].
    destruct (String.eqb_spec (rd_id d) id) as [Heq|_]; [|reflexivity].
    destruct Hid as [Hid|Hid]; [now elim Hid|].
    elim Hid. now rewrite <- Heq.
  - destruct (calculate_carbon_failure E w w' body r Hrun Hother) as [-> _].
    reflexivity.
Qed.

Lemma post_keeps_other_documents_witness :
  find_calculation Sample.later_world "doc0" <> None
  /\ get_calculation Scenario.online
       (snd (calculate_carbon Sample.engine Sample.later_world
               Scenario.anonymous_request)) "doc0"
     = get_calculation Scenario.online Sample.later_world "doc0".
Proof.
  split; [vm_compute; discriminate|].
  apply (post_keeps_other_documents Sample.engine Scenario.online
           Sample.later_world Scenario.anonymous_request "doc0").
  left. vm_compute. discriminate.
Defined.

(** The answers of [DELETE /api/calculation/:id] that delete nothing. *)
Lemma delete_calculation_failure (av : Availability) (w w' : World)
  (id : string) (body : value) (r : Reply unit) :
  delete_calculation av w id body = (r, w') ->
  reply_status r <> 200%nat ->
  w' = w /\ reply_success r = false
  /\ (reply_status r = 403%nat \/ reply_status r = 404%nat
      \/ reply_status r = 500%nat).
Proof.
  unfold delete_calculation, doc_get, doc_delete.
  destruct (negb (object_coercible body)); [intros [= <- <-]; cbn; auto|].
  destruct (reads av); [|intros [= <- <-]; cbn; auto].
  destruct (find_calculation w id) as [d|]; [|intros [= <- <-]; cbn; auto].
  destruct (negb (strict_equal _ _)); [intros [= <- <-]; cbn; auto|].
  destruct (deletes av); intros [= <- <-]; cbn; [congruence|auto].
Qed.

(** The answer [200] of [DELETE /api/calculation/:id]. *)
Lemma delete_calculation_success (av : Availability) (w w' : World)
  (id : string) (body : value) (r : Reply unit) :
  delete_calculation av w id body = (r, w') ->
  reply_status r = 200%nat ->
  exists d,
    find_calculation w id = Some d
    /\ strict_equal (cd_userId d) (Get body "userId") = true
    /\ object_coercible body = true
    /\ reads av = true /\ deletes av = true
    /\ w' = without_calculation w id.
Proof.
  unfold delete_calculation, doc_get, doc_delete.
  destruct (object_coercible body); cbn [negb];
    [|intros [= <- <-]; discriminate].
  destruct (reads av); [|intros [= <- <-]; discriminate].
  destruct (find_calculation w id) as [d|]; [|intros [= <- <-]; discriminate].
  destruct (strict_equal _ _) eqn:Hown; cbn [negb];
    [|intros [= <- <-]; discriminate].
  destruct (deletes av); intros [= <- <-]; [|discriminate].
  intros _. exists d. repeat split; assumption.
Qed.

(** X5.  [DELETE /api/calculation/:id] answers [200], [403], [404] or
    [500].  It answers [200] only for a stored document whose [userId] is
    strictly equal to the [userId] of the request body; the document is
    then gone and every other id reads as before.  After any other answer
    the store is as it was. *)
Theorem delete_store_effect (av : Availability) (w : World) (id : string)
  (body : value) :
  (reply_status (fst (delete_calculation av w id body)) = 200%nat
   /\ (exists d, find_calculation w id = Some d
                 /\ strict_equal (cd_userId d) (Get body "userId") = true)
   /\ find_calculation (snd (delete_calculation av w id body)) id = None
   /\ forall id', id' <> id ->
        find_calculation (snd (delete_calculation av w id body)) id'
        = find_calculation w id')
  \/ ((reply_status (fst (delete_calculation av w id body)) = 403%nat
       \/ reply_status (fst (delete_calculation av w id body)) = 404%nat
       \/ reply_status (fst (delete_calculation av w id body)) = 500%nat)
      /\ snd (delete_calculation av w id body) = w).
Proof.
  destruct (delete_calculation av w id body) as [r w'] eqn:Hrun.
  cbn [fst snd].
  destruct (Nat.eq_dec (reply_status r) 200) as [H200|Hother].
  - left. split; [exact H200|].
    destruct (delete_calculation_success av w w' id body r Hrun H200)
      as (d & Hfind & Hown & _ & _ & _ & ->).
    split; [exists d; split; assumption|].
    split.
    + rewrite find_calculation_removed, String.eqb_refl. reflexivity.
    + intros id' Hne. rewrite find_calculation_removed.
      destruct (String.eqb_spec id' id) as [Heq|_]; [now elim Hne|reflexivity].
  - right.
    destruct (delete_calculation_failure av w w' id body r Hrun Hother)
      as (-> & _ & Hcode).
    split; [exact Hcode|reflexivity].
Qed.

(** X6.  Who may delete what was posted: after a [POST] that answered
    [200] with a fresh id, and with the store answering, a [DELETE] of
    that id answers [200] when the [userId] of its body is strictly equal
    to [userId || 'anonymous'] of the posted request, and [403]
    otherwise. *)
Theorem post_then_delete (E : Engine) (av : Availability) (w : World)
  (body body' : value) :
  reads av = true -> deletes av = true ->
  object_coercible body' = true ->
  status (fst (calculate_carbon E w body)) = 200%nat ->
  find_calculation w (auto_id w (List.length (emissionCalculations w))) = None ->
  reply_status
    (fst (delete_calculation av (snd (calculate_carbon E w body))
            (auto_id w (List.length (emissionCalculations w))) body'))
  = if strict_equal (js_or (Get body "userId") (VStr "anonymous"))
         (Get body' "userId")
    then 200%nat else 403%nat.
Proof.
  intros Hr Hd Hbody' H200 Hfresh.
  destruct (posted_document E w body H200 Hfresh)
    as (d & doc & _ & Hid & Hfind & Hu & _).
  rewrite Hid in Hfind.
  unfold delete_calculation, doc_get, doc_delete.
  rewrite Hbody', Hr, Hfind, Hd, Hu. cbn [negb].
  destruct (strict_equal _ _); reflexivity.
Qed.

Lemma post_then_delete_witness :
  reply_status
    (fst (delete_calculation Scenario.online (snd Scenario.posted) "doc0"
            (VObj [("userId", VStr "u2")])))
  = 403%nat
  /\ reply_status
       (fst (delete_calculation Scenario.online (snd Scenario.posted) "doc0"
               (VObj [("userId", VStr "u1")])))
     = 200%nat.
Proof.
  split.
  - exact (post_then_delete Sample.engine Scenario.online Sample.world
             (Sample.request (VNum 10) Sample.paris Sample.new_york)
             (VObj [("userId", VStr "u2")])
             eq_refl eq_refl eq_refl eq_refl eq_refl).
  - exact (post_then_delete Sample.engine Scenario.online Sample.world
             (Sample.request (VNum 10) Sample.paris Sample.new_york)
             (VObj [("userId", VStr "u1")])
             eq_refl eq_refl eq_refl eq_refl eq_refl).
Defined.

(** The owner recorded by [POST] is never [undefined]. *)
Lemma js_or_defined (v : value) (s : string) :
  strict_equal (js_or v (VStr s)) VUndefined = false.
Proof.
  unfold js_or. destruct (truthy v) eqn:Hv; [|reflexivity].
  destruct v; try reflexivity; discriminate.
Qed.

(** X7.  Three consequences for documents made by [POST] (fresh id, store
    answering).  A [DELETE] whose body has no [userId] is answered [403].
    A document posted without a [userId] is deleted by any body whose
    [userId] is ['anonymous'].  A document posted with an object or an
    array as [userId] is deleted by no body at all. *)
Theorem post_then_delete_cases (E : Engine) (av : Availability) (w : World)
  (body body' : value) :
  reads av = true -> deletes av = true ->
  object_coercible body' = true ->
  status (fst (calculate_carbon E w body)) = 200%nat ->
  find_calculation w (auto_id w (List.length (emissionCalculations w))) = None ->
  (Get body' "userId" = VUndefined ->
   reply_status
     (fst (delete_calculation av (snd (calculate_carbon E w body))
             (auto_id w (List.length (emissionCalculations w))) body'))
   = 403%nat)
  /\ (truthy (Get body "userId") = false ->
      Get body' "userId" = VStr "anonymous" ->
      reply_status
        (fst (delete_calculation av (snd (calculate_carbon E w body))
                (auto_id w (List.length (emissionCalculations w))) body'))
      = 200%nat)
  /\ ((exists fields, Get body "userId" = VObj fields)
      \/ (exists items, Get body "userId" = VArr items) ->
      reply_status
        (fst (delete_calculation av (snd (calculate_carbon E w body))
                (auto_id w (List.length (emissionCalculations w))) body'))
      = 403%nat).
Proof.
  intros Hr Hd Hbody' H200 Hfresh.
  destruct (posted_document E w body H200 Hfresh)
    as (d & doc & _ & Hid & Hfind & Hu & _).
  rewrite Hid in Hfind.
  unfold delete_calculation, doc_get, doc_delete.
  rewrite Hbody', Hr, Hfind, Hd, Hu. cbn [negb].
  split; [|split].
  - intros ->. rewrite js_or_defined. reflexivity.
  - intros Hanon ->. unfold js_or. rewrite Hanon. reflexivity.
  - intros [[fields ->]|[items ->]]; reflexivity.
Qed.

Lemma post_then_delete_cases_witness :
  truthy (Get Scenario.anonymous_request "userId") = false
  /\ reply_status
       (fst (delete_calculation Scenario.online
               (snd Scenario.posted_anonymously) "doc0"
               (VObj [("userId", VStr "anonymous")])))
     = 200%nat.
Proof.
  split; [reflexivity|].
  exact (proj1 (proj2
           (post_then_delete_cases Sample.engine Scenario.online Sample.world
              Scenario.anonymous_request (VObj [("userId", VStr "anonymous")])
              eq_refl eq_refl eq_refl eq_refl eq_refl))
           eq_refl eq_refl).
Defined.

(** X8.  After [DELETE /api/calculation/:id] has answered [200], the
    document cannot be fetched or deleted again: with the store answering,
    [GET /api/calculation/:id] and a second [DELETE] both answer [404]
    ['Calculation not found'], and the second [DELETE] changes nothing. *)
Theorem delete_then_not_found (av av' : Availability) (w : World)
  (id : string) (body body' : value) :
  reply_status (fst (delete_calculation av w id body)) = 200%nat ->
  reads av' = true ->
  object_coercible body' = true ->
  get_calculation av' (snd (delete_calculation av w id body)) id
  = failure 404 "Calculation not found" None
  /\ delete_calculation av' (snd (delete_calculation av w id body)) id body'
     = (failure 404 "Calculation not found" None,
        snd (delete_calculation av w id body)).
Proof.
  intros H200 Hr Hbody'.
  destruct (delete_calculation av w id body) as [r w'] eqn:Hrun.
  cbn [fst snd] in *.
  destruct (delete_calculation_success av w w' id body r Hrun H200)
    as (d & _ & _ & _ & _ & _ & ->).
  unfold get_calculation, delete_calculation, doc_get.
  rewrite Hr, Hbody', find_calculation_removed, String.eqb_refl.
  split; reflexivity.
Qed.

Lemma delete_then_not_found_witness :
  get_calculation Scenario.online
    (snd (delete_calculation Scenario.online (snd Scenario.posted) "doc0"
            (VObj [("userId", VStr "u1")]))) "doc0"
  = failure 404 "Calculation not found" None
  /\ delete_calculation Scenario.online
       (snd (delete_calculation Scenario.online (snd Scenario.posted) "doc0"
               (VObj [("userId", VStr "u1")]))) "doc0"
       (VObj [("userId", VStr "u1")])
     = (failure 404 "Calculation not found" None,
        snd (delete_calculation Scenario.online (snd Scenario.posted) "doc0"
               (VObj [("userId", VStr "u1")]))).
Proof.
  exact (delete_then_not_found Scenario.online Scenario.online
           (snd Scenario.posted) "doc0" (VObj [("userId", VStr "u1")])
           (VObj [("userId", VStr "u1")]) eq_refl eq_refl eq_refl).
Defined.

(** ** Numbers that are not finite *)

Section NotFinite.

Local Open Scope float_scope.

Lemma is_nan_eq x : PrimFloat.is_nan x = true -> x = nan.
Proof.
  rewrite is_nan_SF. intros H. apply Prim2SF_inj.
  change (Prim2SF nan) with S754_nan.
  destruct (Prim2SF x); try discriminate; reflexivity.
Qed.

Lemma is_nan_not_finite x :
  PrimFloat.is_nan x = true -> PrimFloat.is_finite x = false.
Proof. rewrite is_nan_SF, is_finite_SF. now destruct (Prim2SF x). Qed.

Lemma add_nan_l x : nan + x = nan.
Proof. by_spec. change (Prim2SF nan) with S754_nan. reflexivity. Qed.

Lemma add_nan_r x : x + nan = nan.
Proof.
  by_spec. change (Prim2SF nan) with S754_nan.
  unfold SF64add, SFadd. now destruct (Prim2SF x).
Qed.

Lemma mul_nan_l x : nan * x = nan.
Proof. by_spec. change (Prim2SF nan) with S754_nan. reflexivity. Qed.

Lemma mul_nan_r x : x * nan = nan.
Proof. rewrite mul_comm. apply mul_nan_l. Qed.

Lemma div_nan_l x : nan / x = nan.
Proof. by_spec. change (Prim2SF nan) with S754_nan. reflexivity. Qed.

Lemma sub_not_finite_l x y :
  PrimFloat.is_finite x = false -> PrimFloat.is_finite (x - y) = false.
Proof.
  rewrite !is_finite_SF, sub_spec. unfold SF64sub, SFsub.
  destruct (Prim2SF x) as [s|s| |s m e], (Prim2SF y) as [s'|s'| |s' m' e'];
    try discriminate; try reflexivity.
  intros _. destruct s, s'; reflexivity.
Qed.

Lemma sub_not_finite_r x y :
  PrimFloat.is_finite y = false -> PrimFloat.is_finite (x - y) = false.
Proof.
  rewrite !is_finite_SF, sub_spec. unfold SF64sub, SFsub.
  destruct (Prim2SF x) as [s|s| |s m e], (Prim2SF y) as [s'|s'| |s' m' e'];
    try discriminate; try reflexivity.
  intros _. destruct s, s'; reflexivity.
Qed.

Lemma mul_not_finite_l x c :
  PrimFloat.is_finite x = false -> PrimFloat.is_finite (x * c) = false.
Proof.
  rewrite !is_finite_SF, mul_spec. unfold SF64mul, SFmul.
  destruct (Prim2SF x) as [s|s| |s m e], (Prim2SF c) as [s'|s'| |s' m' e'];
    try discriminate; reflexivity.
Qed.

Lemma div_not_finite_l x c :
  PrimFloat.is_finite x = false -> PrimFloat.is_finite (x / c) = false.
Proof.
  rewrite !is_finite_SF, div_spec. unfold SF64div, SFdiv.
  destruct (Prim2SF x) as [s|s| |s m e], (Prim2SF c) as [s'|s'| |s' m' e'];
    try discriminate; reflexivity.
Qed.

Variable E : Engine.

(** [Math.sin] of [NaN] and of the infinities is [NaN]. *)
Lemma Math_sin_not_finite x :
  PrimFloat.is_finite x = false -> Math_sin E x = nan.
Proof.
  unfold Math_sin. rewrite is_finite_SF, is_nan_SF, is_zero_SF, is_infinity_SF.
  intros H. destruct (Prim2SF x) as [s|s| |s m e] eqn:Hx; try discriminate.
  - reflexivity.
  - cbn [orb]. apply is_nan_eq. rewrite is_nan_SF, Hx. reflexivity.
Qed.

Lemma Math_sqrt_nan : Math_sqrt nan = nan.
Proof. reflexivity. Qed.

Lemma Math_atan2_nan_l x : Math_atan2 E nan x = nan.
Proof. reflexivity. Qed.

(** The angle [(b - a) * Math.PI / 180 / 2] of a coordinate that is not
    finite has sine [NaN]. *)
Lemma half_sine_not_finite a b :
  PrimFloat.is_finite a && PrimFloat.is_finite b = false ->
  Math_sin E ((b - a) * Math_PI / of_Z 180 / of_Z 2) = nan.
Proof.
  intros H. apply Math_sin_not_finite.
  do 2 apply div_not_finite_l. apply mul_not_finite_l.
  apply andb_false_iff in H. destruct H as [H|H].
  - now apply sub_not_finite_r.
  - now apply sub_not_finite_l.
Qed.

(** The distance once [a] is [NaN]. *)
Lemma distance_of_nan x :
  of_Z 6371 * (of_Z 2 * Math_atan2 E (Math_sqrt nan) x) = nan.
Proof. reflexivity. Qed.

Lemma calculateDistance_not_finite (lat1 lon1 lat2 lon2 : float) :
  PrimFloat.is_finite lat1 && PrimFloat.is_finite lon1
  && PrimFloat.is_finite lat2 && PrimFloat.is_finite lon2 = false ->
  calculateDistance (floatOps E) lat1 lon1 lat2 lon2 = nan.
Proof.
  intros H. unfold calculateDistance.
  cbn [floatOps nlit nPI nadd nsub nmul ndiv nsin ncos nsqrt natan2].
  destruct (PrimFloat.is_finite lat1 && PrimFloat.is_finite lat2) eqn:Hlat.
  - assert (Hlon : PrimFloat.is_finite lon1 && PrimFloat.is_finite lon2 = false).
    { apply andb_prop in Hlat. destruct Hlat as [H1 H2].
      rewrite H1, H2 in H. cbn in H. rewrite andb_true_r in H.
      destruct (PrimFloat.is_finite lon1); [exact H|reflexivity]. }
    rewrite (half_sine_not_finite lon1 lon2 Hlon).
    rewrite !mul_nan_r, add_nan_r. apply distance_of_nan.
  - rewrite (half_sine_not_finite lat1 lat2 Hlat).
    rewrite mul_nan_l, add_nan_l. apply distance_of_nan.
Qed.

End NotFinite.

(** X9.  On any engine, a coordinate that is [NaN], [Infinity] or
    [-Infinity] makes the distance [NaN]: [calculateDistance] rejects
    nothing and reports no error. *)
Theorem calculateDistance_NaN_on_non_finite (E : Engine)
  (lat1 lon1 lat2 lon2 : float) :
  PrimFloat.is_finite lat1 = false \/ PrimFloat.is_finite lon1 = false
  \/ PrimFloat.is_finite lat2 = false \/ PrimFloat.is_finite lon2 = false ->
  calculateDistance (floatOps E) lat1 lon1 lat2 lon2 = nan.
Proof.
  intros H. apply calculateDistance_not_finite.
  destruct H as [H|[H|[H|H]]]; rewrite H;
    rewrite ?andb_false_r, ?andb_false_l; reflexivity.
Qed.

Lemma calculateDistance_NaN_on_non_finite_witness :
  calculateDistance (floatOps Sample.engine)
    48.8566%float infinity 40.7128%float (-74.006)%float
  = nan.
Proof.
  apply (calculateDistance_NaN_on_non_finite Sample.engine).
  right. left. reflexivity.
Defined.




(** ** More on the emission factor *)

Section MoreEmissionFacts.

Local Open Scope float_scope.

(** Once [sum] is a String it stays one. *)
Lemma fold_from_text (fuels : list string) :
  fold_left
    (fun sum fuel => acc_add sum (js_or (literal_get fuelFactors fuel) (VNum 0.12)))
    fuels AccText
  = AccText.
Proof. induction fuels as [|f rest IH]; [reflexivity|exact IH]. Qed.

(** An inherited tag reads a function, or [Object.prototype] itself. *)
Lemma inherited_term (fuel : string) (sum : accumulator) :
  inherited fuel = true ->
  acc_add sum (js_or (literal_get fuelFactors fuel) (VNum 0.12)) = AccText.
Proof.
  unfold inherited, literal_get, fuelFactors, assoc. intros H.
  destruct (String.eqb_spec fuel "diesel") as [->|_]; [discriminate|].
  destruct (String.eqb_spec fuel "cng") as [->|_]; [discriminate|].
  destruct (String.eqb_spec fuel "bev") as [->|_]; [discriminate|].
  destruct (String.eqb_spec fuel "hvo") as [->|_]; [discriminate|].
  destruct (mem_string fuel Object_prototype_functions).
  - destruct sum; reflexivity.
  - cbn [orb] in H. rewrite H. destruct sum; reflexivity.
Qed.

Lemma fold_with_inherited (fuels : list string) : forall sum,
  existsb inherited fuels = true ->
  fold_left
    (fun sum fuel => acc_add sum (js_or (literal_get fuelFactors fuel) (VNum 0.12)))
    fuels sum
  = AccText.
Proof.
  induction fuels as [|f rest IH]; intros sum H; [discriminate|].
  cbn [existsb] in H. cbn [fold_left].
  destruct (inherited f) eqn:Hf.
  - rewrite (inherited_term f sum Hf). apply fold_from_text.
  - apply IH. exact H.
Qed.

Lemma Object_keys_returns (v : value) :
  object_coercible v = true ->
  Object_keys v = Return (map fst (own_entries v)).
Proof. destruct v; try reflexivity; discriminate. Qed.

End MoreEmissionFacts.

(** X11.  The truck rule on fuel tags that [Object.prototype] does not
    answer: with nothing selected the factor is the base [0.12]; otherwise
    it is the sum, from the left, of the factors of the selected tags
    ([0.12] for a tag outside the table) over their number.  Cooling
    multiplies either by [1.3]. *)
Theorem truck_mean_of_selected (fuelTypes cooled : value) :
  object_coercible fuelTypes = true ->
  forallb (fun f => negb (inherited f)) (selected_fuels fuelTypes) = true ->
  getEmissionFactor (VStr "truck") fuelTypes cooled
  = Return (let base := match selected_fuels fuelTypes with
                        | [] => 0.12%float
                        | fuels => mean_spec (map fuel_factor_spec fuels)
                        end in
            if truthy cooled then (base * 1.3)%float else base).
Proof.
  intros Hobj Hall.
  rewrite getEmissionFactor_cooling.
  rewrite (truck_factor fuelTypes (VBool false) Hobj eq_refl Hall).
  reflexivity.
Qed.

Lemma truck_mean_of_selected_witness :
  getEmissionFactor (VStr "truck")
    (VObj [("cng", VBool true); ("diesel", VBool false); ("hvo", VNum 1);
           ("hydrogen", VStr "yes")])
    (VBool true)
  = Return ((0 + 0.10 + 0.08 + 0.12) / 3 * 1.3)%float.
Proof.
  exact (truck_mean_of_selected
           (VObj [("cng", VBool true); ("diesel", VBool false);
                  ("hvo", VNum 1); ("hydrogen", VStr "yes")])
           (VBool true) eq_refl eq_refl).
Defined.

(** X12.  A selected fuel tag that names a property of [Object.prototype]
    ([constructor], [toString], [__proto__], ...) makes the truck factor
    [NaN], wherever it stands among the selected tags and whatever the
    others are, with cooling or without. *)
Theorem truck_any_inherited_tag_NaN (fuelTypes cooled : value) :
  object_coercible fuelTypes = true ->
  existsb inherited (selected_fuels fuelTypes) = true ->
  getEmissionFactor (VStr "truck") fuelTypes cooled = Return nan.
Proof.
  intros Hobj Hsome. unfold getEmissionFactor.
  change (VStr "truck" === "truck") with true. cbv iota.
  rewrite (Object_keys_returns fuelTypes Hobj). cbn [bind].
  fold (selected_fuels fuelTypes).
  destruct (selected_fuels fuelTypes) as [|f rest] eqn:Hsel; [discriminate|].
  change (0 <? List.length (f :: rest))%nat with true. cbv iota.
  rewrite (fold_with_inherited (f :: rest) _ Hsome).
  unfold acc_div. rewrite div_nan_l. cbn [bind].
  destruct (truthy cooled); [rewrite mul_nan_l|]; reflexivity.
Qed.

Lemma truck_any_inherited_tag_NaN_witness :
  getEmissionFactor (VStr "truck")
    (VObj [("diesel", VBool true); ("bev", VBool true);
           ("__proto__", VObj []); ("cng", VBool true)])
    (VBool true)
  = Return nan.
Proof.
  exact (truck_any_inherited_tag_NaN
           (VObj [("diesel", VBool true); ("bev", VBool true);
                  ("__proto__", VObj []); ("cng", VBool true)])
           (VBool true) eq_refl eq_refl).
Defined.

(** X13.  [getEmissionFactor] throws in one case only: the mode is
    ['truck'] and the fuel selection is [undefined] or [null] (the
    [Object.keys] call).  The handler passes [fuelTypes || {}], so its call
    returns. *)
Theorem getEmissionFactor_throws_iff (mode fuels cooled : value) :
  ((exists e, getEmissionFactor mode fuels cooled = Throw e)
   <-> mode = VStr "truck" /\ object_coercible fuels = false)
  /\ exists ef,
       getEmissionFactor mode (js_or fuels (VObj [])) cooled = Return ef.
Proof.
  split; [|apply getEmissionFactor_returns, js_or_object_coercible].
  split.
  - intros [e He].
    destruct (object_coercible fuels) eqn:Hobj.
    + destruct (getEmissionFactor_returns mode fuels cooled Hobj) as [ef Hef].
      congruence.
    + split; [|reflexivity].
      unfold getEmissionFactor in He.
      destruct mode as [| | | |s| | |];
        try (cbn in He; discriminate).
      unfold strict_equals in He.
      destruct (String.eqb_spec s "truck") as [->|_]; [reflexivity|].
      repeat match type of He with
             | context [if ?c then _ else _] => destruct c
             end; discriminate.
  - intros [-> Hobj]. destruct fuels; try discriminate; eexists; reflexivity.
Qed.

(** ** Numbers that are not below zero *)

Section NotNegative.

Local Open Scope float_scope.










End NotNegative.

(** ** The sign of the footprint *)

Section SignFacts.

Local Open Scope float_scope.





End SignFacts.



(** The validation does not look at signs: a negative quantity is taken,
    and the trees sent are below zero. *)
Example negative_quantity_accepted :
  exists d,
    fst (calculate_carbon Sample.engine Sample.world
           (Sample.request (VNum (-10)) Sample.paris Sample.new_york))
    = respond_200 d
    /\ (rd_treesNeeded d <? 0)%float = true.
Proof. eexists. split; vm_compute; reflexivity. Qed.

(** ** The distance in binary64 *)

Section MoreFloatDistance.

Local Open Scope float_scope.

Variable E : Engine.






End MoreFloatDistance.

Lemma near_In (n : nat) (c y : float) :
  near n c y = true -> In y (neighbours n c).
Proof.
  unfold near. intros H. apply existsb_exists in H.
  destruct H as (z & Hin & Heq). apply Leibniz.eqb_spec in Heq. now subst.
Qed.

(** The sample engine is as accurate as the quarter great circle asks. *)
Lemma sample_accurate_sine : accurate_sine Sample.engine.
Proof. vm_compute. reflexivity. Qed.

Lemma sample_accurate_arctangent : accurate_arctangent Sample.engine.
Proof.
  intros y x Hy Hx. apply near_In in Hy, Hx.
  vm_compute in Hy, Hx.
  repeat (destruct Hy as [<-|Hy]); try contradiction;
    repeat (destruct Hx as [<-|Hx]); try contradiction;
    vm_compute; reflexivity.
Qed.




Section DistanceClaims.

Local Open Scope float_scope.







(** Decimal bounds on [PI], from the series of [atan (1/3)] and [atan (1/7)]. *)
Lemma PI_bounds : (3.14159 < PI < 3.141593)%R.
Proof.
  pose proof (PI_2_3_7_ineq 3) as [Hlo Hhi].
  unfold sum_f_R0, tg_alt, PI_2_3_7_tg, Ratan_seq in Hlo, Hhi.
  simpl in Hlo, Hhi.
  split; lra.
Qed.

(** C8.  From [(0, 0)] to [(0, 90)] the distance computed in binary64 is
    within [0.0005] of [10007.5434], hence within [0.05] of [10007.5], on
    every engine whose sine at the angle of 45 degrees and whose
    arctangent near the diagonal are accurate to a few units in the last
    place; the quarter great circle [6371 * PI / 2] lies in the same
    interval up to [0.01]. *)
Theorem calculateDistance_quarter_great_circle (E : Engine) :
  accurate_sine E -> accurate_arctangent E ->
  ((10007.45 <=? calculateDistance (floatOps E) 0 0 0 90)
   && (calculateDistance (floatOps E) 0 0 0 90 <=? 10007.55))%float = true
  /\ ((10007.5429 <=? calculateDistance (floatOps E) 0 0 0 90)
      && (calculateDistance (floatOps E) 0 0 0 90 <=? 10007.5439))%float = true
  /\ (10007.5334 < 6371 * PI / 2 < 10007.5534)%R.
Proof.
  intros Hs Ha.
  assert (Hd :
    exists d, calculateDistance (floatOps E) 0 0 0 90 = d
              /\ ((10007.45 <=? d) && (d <=? 10007.55))%float = true
              /\ ((10007.5429 <=? d) && (d <=? 10007.5439))%float = true).
  { unfold calculateDistance.
    cbn [floatOps nlit nPI nadd nsub nmul ndiv nsin ncos nsqrt natan2].
    change (Math_sin E ((0 - 0) * Math_PI / of_Z 180 / of_Z 2)%float)
      with 0%float.
    change (Math_cos E (0 * Math_PI / of_Z 180)%float) with 1%float.
    change (Math_sin E ((90 - 0) * Math_PI / of_Z 180 / of_Z 2)%float)
      with (approx_sin E 0.7853981633974483%float).
    apply near_In in Hs.
    set (s := approx_sin E 0.7853981633974483%float) in *. clearbody s.
    vm_compute in Hs.
    repeat (destruct Hs as [<-|Hs]); try contradiction;
      match goal with
      | |- context [Math_atan2 E ?y ?x] =>
          let y' := eval vm_compute in y in
          let x' := eval vm_compute in x in
          change (Math_atan2 E y x) with (approx_atan2 E y' x');
          pose proof (near_In _ _ _
                        (Ha y' x' ltac:(vm_compute; reflexivity)
                                  ltac:(vm_compute; reflexivity))) as Ht;
          set (t := approx_atan2 E y' x') in *; clearbody t
      end;
      vm_compute in Ht;
      repeat (destruct Ht as [<-|Ht]); try contradiction;
      eexists; (split; [reflexivity|split; vm_compute; reflexivity]). }
  destruct Hd as (d & -> & Hwide & Hnarrow).
  split; [exact Hwide|]. split; [exact Hnarrow|].
  pose proof PI_bounds. lra.
Qed.

(** Instance: the sample engine. *)
Lemma calculateDistance_quarter_great_circle_witness :
  accurate_sine Sample.engine
  /\ accurate_arctangent Sample.engine
  /\ ((10007.45 <=? calculateDistance (floatOps Sample.engine) 0 0 0 90)
      && (calculateDistance (floatOps Sample.engine) 0 0 0 90 <=? 10007.55))
     = true.
Proof.
  split; [exact sample_accurate_sine|].
  split; [exact sample_accurate_arctangent|].
  exact (proj1 (calculateDistance_quarter_great_circle Sample.engine
                  sample_accurate_sine sample_accurate_arctangent)).
Defined.

End DistanceClaims.
